(** * RedTeamGemini: the [/generate] endpoint of [main.py]

    A shallow embedding of the request handler [generate_text], of its two
    helpers [scrape_website] and [analyze_threat_level], and of the Python
    string operations they rely on, followed by the properties of the
    request/response contract.

    Modelling conventions.
    - A Python [str] is a [string]; each [ascii] stands for one character
      with code point below 256, and [lower] and [isspace] follow Python on
      exactly that range.
    - The outside world of one request (Flask's [request.get_json()], the
      HTTP client, the generative-AI client) is a record of oracles, [World].
      An oracle answers with a value or with the exception the call raises.
    - The handler runs in a small monad that threads the log of outbound
      calls and propagates exceptions, so that [try]/[except] blocks are
      written where the source has them.
    - Calls to [logging] have no effect on the response and are left out. *)

From Stdlib Require Import String Ascii List ZArith NArith Bool Lia Floats.
Import ListNotations.
Local Open Scope string_scope.

(** ** Python strings *)

Module PyStr.

(** Characters that string literals cannot hold directly. *)
Definition dquote : string := String "034"%char EmptyString.
Definition newline : string := String "010"%char EmptyString.

(** [bool(s)] for a string: non-empty. *)
Definition nonempty (s : string) : bool :=
  match s with
  | EmptyString => false
  | String _ _ => true
  end.

(** [a or b] on strings. *)
Definition or_else (a b : string) : string :=
  if nonempty a then a else b.

(** [s.startswith(p)]. *)
Fixpoint startswith (p s : string) : bool :=
  match p, s with
  | EmptyString, _ => true
  | String _ _, EmptyString => false
  | String a p', String b s' => Ascii.eqb a b && startswith p' s'
  end.

(** [needle in hay]. *)
Fixpoint contains (needle hay : string) : bool :=
  startswith needle hay ||
  match hay with
  | EmptyString => false
  | String _ hay' => contains needle hay'
  end.

(** [s[:n]]. *)
Fixpoint take (n : nat) (s : string) : string :=
  match n, s with
  | O, _ => EmptyString
  | S _, EmptyString => EmptyString
  | S n', String c s' => String c (take n' s')
  end.

(** [c.isspace()] for a code point below 256: tab to carriage return,
    the four separators 28..31, space, NEL (133) and NBSP (160). *)
Definition isspace (c : ascii) : bool :=
  let n := N_of_ascii c in
  ((9 <=? n) && (n <=? 13) || (28 <=? n) && (n <=? 32)
   || (n =? 133) || (n =? 160))%N.

Fixpoint lstrip (s : string) : string :=
  match s with
  | EmptyString => EmptyString
  | String c s' => if isspace c then lstrip s' else s
  end.

Fixpoint rstrip (s : string) : string :=
  match s with
  | EmptyString => EmptyString
  | String c s' =>
      let r := rstrip s' in
      if negb (nonempty r) && isspace c then EmptyString else String c r
  end.

(** [s.strip()]. *)
Definition strip (s : string) : string := rstrip (lstrip s).

(** [c.lower()] for a code point below 256: A..Z and the Latin-1 capitals
    192..222 (without the multiplication sign 215) move up by 32. *)
Definition lower_char (c : ascii) : ascii :=
  let n := N_of_ascii c in
  if ((65 <=? n) && (n <=? 90)
      || (192 <=? n) && (n <=? 222) && negb (n =? 215))%N
  then ascii_of_N (n + 32) else c.

(** [s.lower()]. *)
Fixpoint lower (s : string) : string :=
  match s with
  | EmptyString => EmptyString
  | String c s' => String (lower_char c) (lower s')
  end.

(** Every character of [s] is whitespace. *)
Fixpoint all_space (s : string) : bool :=
  match s with
  | EmptyString => true
  | String c s' => isspace c && all_space s'
  end.

End PyStr.

(** ** JSON values, as [json.loads] builds them *)

#[warnings="-register-all"]
Inductive json : Type :=
| JNull
| JBool (b : bool)
| JInt (n : Z)
| JFloat (f : float)
| JStr (s : string)
| JArr (items : list json)
| JObj (fields : list (string * json)).

Module Json.

(** Truth value of a Python object built from JSON. *)
Definition truthy (j : json) : bool :=
  match j with
  | JNull => false
  | JBool b => b
  | JInt n => negb (n =? 0)%Z
  | JFloat f => negb (PrimFloat.eqb f PrimFloat.zero)
  | JStr s => PyStr.nonempty s
  | JArr l => match l with [] => false | _ => true end
  | JObj l => match l with [] => false | _ => true end
  end.

(** [type(j).__name__]. *)
Definition type_name (j : json) : string :=
  match j with
  | JNull => "NoneType"
  | JBool _ => "bool"
  | JInt _ => "int"
  | JFloat _ => "float"
  | JStr _ => "str"
  | JArr _ => "list"
  | JObj _ => "dict"
  end.

(** Lookup in the fields of an object.  [json.loads] keeps the last
    binding of a repeated key. *)
Fixpoint lookup (k : string) (fields : list (string * json)) : option json :=
  match fields with
  | [] => None
  | (k', v) :: rest =>
      match lookup k rest with
      | Some v' => Some v'
      | None => if String.eqb k k' then Some v else None
      end
  end.

Definition has_key (k : string) (fields : list (string * json)) : bool :=
  match lookup k fields with Some _ => true | None => false end.

End Json.

(** ** Exceptions and results *)

Inductive exn_class : Type :=
| RequestException   (* requests.RequestException and its subclasses *)
| AttributeError
| TypeError
| OtherError.        (* any other subclass of Exception *)

(** An exception: its class and [str(e)]. *)
Record exn : Type := Exn { exn_cls : exn_class; exn_str : string }.

Inductive result (A : Type) : Type :=
| Ok (a : A)
| Raise (e : exn).

Arguments Ok {A} a.
Arguments Raise {A} e.

Definition is_request_exception (e : exn) : bool :=
  match exn_cls e with RequestException => true | _ => false end.

(** The message of the [AttributeError] raised by [obj.attr] on an object
    of type [ty] without that attribute. *)
Definition no_attribute (ty attr : string) : exn :=
  Exn AttributeError ("'" ++ ty ++ "' object has no attribute '" ++ attr ++ "'").

(** ** The generative-AI client's data *)

Module genai.

Inductive HarmCategory : Type :=
| HARM_CATEGORY_HATE_SPEECH
| HARM_CATEGORY_HARASSMENT
| HARM_CATEGORY_SEXUALLY_EXPLICIT
| HARM_CATEGORY_DANGEROUS_CONTENT.

Inductive HarmBlockThreshold : Type :=
| BLOCK_NONE.

Record SafetyRating : Type :=
{ category : HarmCategory; blocked : bool }.

Record Part : Type := { part_text : string }.

(** The content of a candidate is duck-typed: the handler asks with
  [hasattr] whether it has [parts] and whether it has [text]. *)
Record Content : Type :=
{ parts : option (list Part); text : option string }.

(** [content] is [None] when the candidate has no such attribute. *)
Record Candidate : Type :=
{ safety_ratings : list SafetyRating; content : option Content }.

Record GenResponse : Type := { candidates : list Candidate }.

End genai.

(** The arguments of one [model.generate_content(...)] call, with the name
    the model object was built from. *)
Record call : Type :=
  { call_model : json;
    call_prompt : string;
    call_safety : list (genai.HarmCategory * genai.HarmBlockThreshold);
    call_kwargs : list (string * json) }.

(** ** The outside world of one request *)

Record World : Type :=
  { (** [request.get_json()]: the parsed body, or the exception Flask raises
        when the body cannot be taken as JSON. *)
    get_json : result json;
    (** [requests.get(url, headers=...)] followed by [raise_for_status()]:
        the text of the response, or the exception raised. *)
    requests_get : string -> result string;
    (** [BeautifulSoup(text, 'html.parser').prettify()]. *)
    prettify : string -> string;
    (** [genai.GenerativeModel(name)]: whether building the model object
        raises. *)
    GenerativeModel : json -> result unit;
    (** [model.generate_content(...)]; the first argument counts the
        generation calls this request has made before, so that the service
        may answer the same call differently the second time. *)
    generate_content : nat -> call -> result genai.GenResponse }.

(** Outbound calls, in the order they are made. *)
Inductive event : Type :=
| EvFetch (url : string)
| EvGenerate (c : call).

Definition generate_calls (tr : list event) : list call :=
  flat_map (fun e => match e with EvGenerate c => [c] | EvFetch _ => [] end) tr.

Definition fetch_calls (tr : list event) : list string :=
  flat_map (fun e => match e with EvFetch u => [u] | EvGenerate _ => [] end) tr.

(** ** The monad of the handler: a log of calls and exceptions *)

Definition M (A : Type) : Type := list event -> result A * list event.

Definition ret {A} (a : A) : M A := fun tr => (Ok a, tr).

Definition bind {A B} (m : M A) (k : A -> M B) : M B :=
  fun tr =>
    match m tr with
    | (Ok a, tr') => k a tr'
    | (Raise e, tr') => (Raise e, tr')
    end.

(** A pure computation that may raise. *)
Definition lift {A} (r : result A) : M A := fun tr => (r, tr).

(** [try: m  except Exception as e: h e]. *)
Definition try_except {A} (m : M A) (h : exn -> M A) : M A :=
  fun tr =>
    match m tr with
    | (Ok a, tr') => (Ok a, tr')
    | (Raise e, tr') => h e tr'
    end.

Notation "x <- m ;; k" := (bind m (fun x => k))
  (at level 61, m at next level, right associativity).
Notation "' pat <- m ;; k" := (bind m (fun x => match x with pat => k end))
  (at level 61, pat pattern, m at next level, right associativity).

Definition do_requests_get (w : World) (url : string) : M string :=
  fun tr => (requests_get w url, (tr ++ [EvFetch url])%list).

Definition do_generate_content (w : World) (c : call)
  : M genai.GenResponse :=
  fun tr =>
    (generate_content w (List.length (generate_calls tr)) c,
     (tr ++ [EvGenerate c])%list).

(** ** Responses *)

Record http_response : Type := { status : Z; body : json }.

(** [jsonify({'error': msg}), code]. *)
Definition error_response (code : Z) (msg : string) : http_response :=
  {| status := code; body := JObj [("error", JStr msg)] |}.

Definition missing_url_msg : string :=
  "Missing " ++ PyStr.dquote ++ "url" ++ PyStr.dquote ++ " in request body".
Definition scrape_failed_msg : string := "Failed to scrape website content".
Definition generate_failed_msg : string := "Failed to generate content".
Definition no_candidates_msg : string := "No candidates returned from the model".
Definition blocked_msg : string := "Response was blocked due to safety ratings".
Definition empty_code_msg : string := "Generated code is empty".

(** The pair [analyze_threat_level] falls back to. *)
Definition unable : string * string :=
  ("Unable to determine threat level", "No detailed analysis available").

Definition default_model : json := JStr "gemini-1.5-flash".

(** The [safety_settings] dictionary, the same in both calls. *)
Definition safety_settings
  : list (genai.HarmCategory * genai.HarmBlockThreshold) :=
  [ (genai.HARM_CATEGORY_HATE_SPEECH, genai.BLOCK_NONE);
    (genai.HARM_CATEGORY_HARASSMENT, genai.BLOCK_NONE);
    (genai.HARM_CATEGORY_SEXUALLY_EXPLICIT, genai.BLOCK_NONE);
    (genai.HARM_CATEGORY_DANGEROUS_CONTENT, genai.BLOCK_NONE) ].

(** ** [scrape_website] *)

Definition scrape_website (w : World) (url : string) : M (option string) :=
  try_except
    (response_text <- do_requests_get w url ;;
     ret (Some (prettify w response_text)))
    (fun e => if is_request_exception e then ret None else lift (Raise e)).

(** ** [analyze_threat_level] *)

Definition analysis_prompt (content : string) : string :=
  "Analyze the following content for vulnerabilities and provide a threat level assessment. "
  ++ "Explain the findings and give your thoughts on the potential risks:"
  ++ PyStr.newline ++ PyStr.newline ++ content.

(** Line 69: the label read off the assessment text. *)
Definition threat_level_of (analysis_text : string) : string :=
  if PyStr.contains "high risk" (PyStr.lower analysis_text) then "High"
  else if PyStr.contains "low risk" (PyStr.lower analysis_text) then "Low"
  else "Medium".

Definition analyze_threat_level (w : World) (content : string)
  : M (string * string) :=
  if negb (PyStr.nonempty content) then ret unable
  else
    let prompt := analysis_prompt content in
    _ <- lift (GenerativeModel w default_model) ;;
    try_except
      (response <- do_generate_content w
         {| call_model := default_model; call_prompt := prompt;
            call_safety := safety_settings; call_kwargs := [] |} ;;
       match genai.candidates response with
       | [] => ret unable
       | candidate :: _ =>
           candidate_content <-
             lift (match genai.content candidate with
                   | Some c => Ok c
                   | None => Raise (no_attribute "Candidate" "content")
                   end) ;;
           let analysis_text :=
             match genai.text candidate_content with Some t => t | None => "" end in
           if negb (PyStr.nonempty (PyStr.strip analysis_text)) then ret unable
           else ret (threat_level_of analysis_text, analysis_text)
       end)
      (fun e => ret ("Error", exn_str e)).

(** ** [generate_text] *)

(** [data.get(key, default)]; only a dict has [get]. *)
Definition py_get (data : json) (key : string) (default : json) : result json :=
  match data with
  | JObj fields =>
      Ok (match Json.lookup key fields with Some v => v | None => default end)
  | _ => Raise (no_attribute (Json.type_name data) "get")
  end.

(** Lines 117-118; only a [str] has [startswith]. *)
Definition normalize_url (url : json) : result string :=
  match url with
  | JStr s =>
      Ok (if negb (PyStr.startswith "http://" s)
             && negb (PyStr.startswith "https://" s)
          then "http://" ++ s else s)
  | _ => Raise (no_attribute (Json.type_name url) "startswith")
  end.

(** Lines 129-134 for a [str] category. *)
Definition prompt_of (vulnerability url website_content : string) : string :=
  "You are an expert red-team specialist. "
  ++ "Attempt to find the following vulnerability: " ++ vulnerability ++ ". "
  ++ "Target URL: " ++ url ++ ". "
  ++ "Analyze the following website content for vulnerabilities:"
  ++ PyStr.newline
  ++ PyStr.or_else (PyStr.take (N.to_nat 5000) website_content) "".

(** Lines 129-134: [+] between a [str] and anything else raises. *)
Definition build_prompt (vulnerability : json) (url website_content : string)
  : result string :=
  match vulnerability with
  | JStr v => Ok (prompt_of v url website_content)
  | _ =>
      Raise (Exn TypeError
               ("can only concatenate str (not " ++ PyStr.dquote
                ++ Json.type_name vulnerability ++ PyStr.dquote ++ ") to str"))
  end.

(** [**parameters] at line 148: the value must be a mapping, and may not
    repeat the keyword the call already passes. *)
Definition unpack_kwargs (parameters : json) : result (list (string * json)) :=
  match parameters with
  | JObj fields =>
      if Json.has_key "safety_settings" fields
      then Raise (Exn TypeError
                    "got multiple values for keyword argument 'safety_settings'")
      else Ok fields
  | _ =>
      Raise (Exn TypeError
               ("argument after ** must be a mapping, not "
                ++ Json.type_name parameters))
  end.

(** Lines 167-173. *)
Definition extract_generated_code (candidate : genai.Candidate) : result string :=
  match genai.content candidate with
  | None => Ok ""
  | Some c =>
      match genai.parts c with
      | Some ps =>
          Ok (fold_left (fun acc part => acc ++ genai.part_text part) ps "")
      | None =>
          match genai.text c with
          | Some t => Ok t
          | None => Raise (no_attribute "Content" "text")
          end
      end
  end.

(** Line 162. *)
Definition is_blocked (candidate : genai.Candidate) : bool :=
  match genai.safety_ratings candidate with [] => false | _ => true end
  && existsb genai.blocked (genai.safety_ratings candidate).

(** The body of the outer [try]. *)
Definition handle (w : World) : M http_response :=
  data <- lift (get_json w) ;;
  url <- lift (py_get data "url" JNull) ;;
  vulnerability <-
    lift (py_get data "vulnerability" (JStr "Cross-Site Scripting (XSS)")) ;;
  model_name <- lift (py_get data "model" default_model) ;;
  parameters <- lift (py_get data "parameters" (JObj [])) ;;
  if negb (Json.truthy url) then ret (error_response 400 missing_url_msg)
  else
    url <- lift (normalize_url url) ;;
    website_content <- scrape_website w url ;;
    match website_content with
    | None => ret (error_response 500 scrape_failed_msg)
    | Some website_content =>
      if negb (PyStr.nonempty website_content)
      then ret (error_response 500 scrape_failed_msg)
      else
        prompt <- lift (build_prompt vulnerability url website_content) ;;
        _ <- lift (GenerativeModel w model_name) ;;
        generated <-
          try_except
            (kwargs <- lift (unpack_kwargs parameters) ;;
             response <- do_generate_content w
               {| call_model := model_name; call_prompt := prompt;
                  call_safety := safety_settings; call_kwargs := kwargs |} ;;
             ret (Some response))
            (fun _ => ret None) ;;
        match generated with
        | None => ret (error_response 500 generate_failed_msg)
        | Some response =>
          match genai.candidates response with
          | [] => ret (error_response 500 no_candidates_msg)
          | candidate :: _ =>
            if is_blocked candidate
            then ret (error_response 500 blocked_msg)
            else
              generated_code <- lift (extract_generated_code candidate) ;;
              if negb (PyStr.nonempty (PyStr.strip generated_code))
              then ret (error_response 500 empty_code_msg)
              else
                '(threat_level, detailed_analysis) <-
                  analyze_threat_level w (PyStr.or_else generated_code "") ;;
                ret {| status := 200;
                       body := JObj
                         [ ("text", JStr (PyStr.or_else generated_code "No output"));
                           ("analysis",
                            JStr (PyStr.or_else detailed_analysis
                                    "No content to analyze"));
                           ("threat_level",
                            JStr (PyStr.or_else threat_level "N/A")) ] |}
          end
        end
    end.

(** The endpoint: the response and the outbound calls made for it. *)
Definition generate_text (w : World) : http_response * list event :=
  match handle w [] with
  | (Ok r, tr) => (r, tr)
  | (Raise e, tr) => (error_response 500 (exn_str e), tr)
  end.

Definition response (w : World) : http_response := fst (generate_text w).
Definition calls (w : World) : list event := snd (generate_text w).

(** A field of a JSON body. *)
Definition field (k : string) (r : http_response) : option json :=
  match body r with
  | JObj fields => Json.lookup k fields
  | _ => None
  end.

(** ** What a request's run lets us observe *)

(** The page fetcher's answer for [url], as [scrape_website] returns it. *)
Definition scraped (w : World) (url : string) : result (option string) :=
  fst (scrape_website w url []).

(** The [url] field of a request body, if the body has one. *)
Definition url_field (data : json) : option json :=
  match data with
  | JObj fields => Json.lookup "url" fields
  | _ => None
  end.

(** The body has no [url] field, or a falsy one. *)
Definition lacks_url (data : json) : Prop :=
  match url_field data with
  | None => True
  | Some v => Json.truthy v = false
  end.

(** The response is a JSON object with an [error] field. *)
Definition is_error (r : http_response) : Prop :=
  exists msg, field "error" r = Some (JStr msg).

(** The generation calls of a request, and what the service answered. *)
Definition first_call (w : World) : option call :=
  hd_error (generate_calls (calls w)).

Definition second_call (w : World) : option call :=
  nth_error (generate_calls (calls w)) 1.

Definition first_answer (w : World) : option (result genai.GenResponse) :=
  option_map (generate_content w 0) (first_call w).

Definition second_answer (w : World) : option (result genai.GenResponse) :=
  option_map (generate_content w 1) (second_call w).

(** Two strings are equal up to the case of their letters. *)
Definition equal_ignoring_case (a b : string) : Prop :=
  PyStr.lower a = PyStr.lower b.

(** [text] contains [phrase] up to the case of its letters. *)
Definition mentions (phrase text : string) : Prop :=
  exists pre mid post,
    text = pre ++ mid ++ post /\ equal_ignoring_case mid phrase.

(** [url] is the URL the request works with downstream: a page fetch is
    for [url], and the prompt of the first generation call carries [url]
    after the words "Target URL: ", between the vulnerability category of
    the request and the scraped page. *)
Definition downstream_url (w : World) (data : json) (url : string) : Prop :=
  (forall u, In (EvFetch u) (calls w) -> u = url) /\
  forall (c : call) (v page : string),
    first_call w = Some c ->
    py_get data "vulnerability" (JStr "Cross-Site Scripting (XSS)")
    = Ok (JStr v) ->
    scraped w url = Ok (Some page) ->
    exists embedded rest,
      call_prompt c
      = "You are an expert red-team specialist. Attempt to find the following vulnerability: "
        ++ v ++ ". Target URL: " ++ url
        ++ ". Analyze the following website content for vulnerabilities:"
        ++ PyStr.newline ++ embedded /\
      page = embedded ++ rest.

(** ** Mock worlds for concrete runs *)

Definition text_response (t : string) : genai.GenResponse :=
  {| genai.candidates :=
       [ {| genai.safety_ratings := [];
            genai.content :=
              Some {| genai.parts := None; genai.text := Some t |} |} ] |}.

Definition parts_response (ratings : list genai.SafetyRating)
    (fragments : list string) : genai.GenResponse :=
  {| genai.candidates :=
       [ {| genai.safety_ratings := ratings;
            genai.content :=
              Some {| genai.parts :=
                        Some (map (fun t => {| genai.part_text := t |}) fragments);
                      genai.text := None |} |} ] |}.

(** A world whose page fetch and whose two generation calls answer as
    given, whatever they are asked. *)
Definition mock_world (data : result json) (page : result string)
    (first second : result genai.GenResponse) : World :=
  {| get_json := data;
     requests_get := fun _ => page;
     prettify := fun s => s;
     GenerativeModel := fun _ => Ok tt;
     generate_content := fun n _ => match n with O => first | _ => second end |}.

Definition unused : result genai.GenResponse :=
  Raise (Exn OtherError "not called").

(** ** Concrete requests *)

(** What werkzeug raises from [get_json()] on a body that does not parse. *)
Definition bad_request : exn :=
  Exn OtherError
    "400 Bad Request: The browser (or proxy) sent a request that this server could not understand.".

Definition world_invalid_json : World :=
  mock_world (Raise bad_request) (Ok "") unused unused.

(** The body [[]]: valid JSON, not an object. *)
Definition world_array_body : World :=
  mock_world (Ok (JArr [])) (Ok "") unused unused.

(** The body [{"vulnerability": "SQL injection", "url": ""}]. *)
Definition world_empty_url : World :=
  mock_world (Ok (JObj [("vulnerability", JStr "SQL injection"); ("url", JStr "")]))
    (Ok "") unused unused.

Definition connection_error : exn :=
  Exn RequestException "HTTPConnectionPool(host='example.invalid', port=80): Max retries exceeded".

(** The body [{"url": "example.invalid"}], with a fetch that fails. *)
Definition world_fetch_fails : World :=
  mock_world (Ok (JObj [("url", JStr "example.invalid")]))
    (Raise connection_error) unused unused.

(** The body [{"url": "example.com"}]. *)
Definition example_body : result json :=
  Ok (JObj [("url", JStr "example.com")]).

Definition example_page : result string := Ok "<html>hello</html>".

(** The first call answers with a candidate flagged as blocked. *)
Definition world_blocked : World :=
  mock_world example_body example_page
    (Ok (parts_response
           [ {| genai.category := genai.HARM_CATEGORY_HARASSMENT;
                genai.blocked := false |};
             {| genai.category := genai.HARM_CATEGORY_DANGEROUS_CONTENT;
                genai.blocked := true |} ]
           ["Found an XSS vector."]))
    unused.

(** The first call answers without candidates. *)
Definition world_no_candidates : World :=
  mock_world example_body example_page
    (Ok {| genai.candidates := [] |}) unused.

(** The first call answers with fragments of whitespace only. *)
Definition world_blank_findings : World :=
  mock_world example_body example_page
    (Ok (parts_response [] [" "; ""; "  "])) unused.

Definition quota_error : exn :=
  Exn OtherError "429 Resource has been exhausted (e.g. check quota).".

Definition findings_fragments : list string :=
  ["Found an XSS vector. "; "This is medium risk."].

(** The first call succeeds and the second one raises. *)
Definition world_assessment_raises : World :=
  mock_world example_body example_page
    (Ok (parts_response [] findings_fragments)) (Raise quota_error).

(** The second call answers with one blank. *)
Definition world_blank_assessment : World :=
  mock_world example_body example_page
    (Ok (parts_response [] findings_fragments)) (Ok (text_response " ")).

(** The second call answers with a text that names a high risk and, later,
    a low one. *)
Definition world_high_risk : World :=
  mock_world example_body example_page
    (Ok (parts_response [] findings_fragments))
    (Ok (text_response "Reflected input: HIGH Risk. Cookie flags: low risk.")).

(** The end-to-end scenario: both calls answer with the same text. *)
Definition world_end_to_end : World :=
  mock_world example_body example_page
    (Ok (text_response "Found an XSS vector. This is medium risk."))
    (Ok (text_response "Found an XSS vector. This is medium risk.")).

Fixpoint repeat_string (n : nat) (s : string) : string :=
  match n with
  | O => ""
  | S n' => s ++ repeat_string n' s
  end.

(** A page of 8000 characters. *)
Definition long_page : string := repeat_string 1000 "<p>x</p>".

(** The body [{"url": "https://example.com/login", "vulnerability":
    "SQL injection"}], with a page longer than the cutoff. *)
Definition world_long_page : World :=
  mock_world
    (Ok (JObj [ ("url", JStr "https://example.com/login");
                ("vulnerability", JStr "SQL injection") ]))
    (Ok long_page)
    (Ok (text_response "Found an XSS vector. This is medium risk."))
    (Ok (text_response "Found an XSS vector. This is medium risk.")).

(** The first generation call of [world_long_page]. *)
Definition long_page_call : call :=
  {| call_model := default_model;
     call_prompt :=
       prompt_of "SQL injection" "https://example.com/login" long_page;
     call_safety := safety_settings;
     call_kwargs := [] |}.

(** ** Further concrete requests *)

Definition decode_error : exn :=
  Exn OtherError "'utf-8' codec can't decode byte 0xff in position 0".

(** The fetch raises something that is not a [RequestException]. *)
Definition world_fetch_crashes : World :=
  mock_world example_body (Raise decode_error) unused unused.

(** The fetch succeeds with an empty document. *)
Definition world_empty_page : World :=
  mock_world example_body (Ok "") unused unused.

(** The first generation call raises. *)
Definition world_generation_raises : World :=
  mock_world example_body example_page (Raise quota_error) unused.

(** The body [{"url": "example.com", "parameters": [0.5]}]. *)
Definition list_parameters_body : json :=
  JObj [("url", JStr "example.com"); ("parameters", JArr [JFloat 0.5%float])].

Definition world_list_parameters : World :=
  mock_world (Ok list_parameters_body) example_page
    (Ok (text_response "Found an XSS vector.")) unused.

(** The body [{"url": 7}]. *)
Definition numeric_url_body : json := JObj [("url", JInt 7)].

Definition world_numeric_url : World :=
  mock_world (Ok numeric_url_body) example_page unused unused.

(** The body [{"url": "example.com", "vulnerability": 3}]. *)
Definition numeric_vulnerability_body : json :=
  JObj [("url", JStr "example.com"); ("vulnerability", JInt 3)].

Definition world_numeric_vulnerability : World :=
  mock_world (Ok numeric_vulnerability_body) example_page
    (Ok (text_response "Found an XSS vector.")) unused.

(** The body [{"url": "example.com", "model": "gemini-pro",
    "parameters": {"stream": false}}]. *)
Definition custom_body : json :=
  JObj [ ("url", JStr "example.com");
         ("model", JStr "gemini-pro");
         ("parameters", JObj [("stream", JBool false)]) ].

Definition world_custom : World :=
  mock_world (Ok custom_body) example_page
    (Ok (parts_response [] findings_fragments))
    (Ok (text_response "Overall this is low risk.")).

(** The assessment call answers with [parts] and no [text]. *)
Definition world_parts_assessment : World :=
  mock_world example_body example_page
    (Ok (parts_response [] findings_fragments))
    (Ok (parts_response [] ["This is high risk."])).

(** The assessment call answers with a candidate without [content]. *)
Definition world_bare_assessment : World :=
  mock_world example_body example_page
    (Ok (parts_response [] findings_fragments))
    (Ok {| genai.candidates :=
             [ {| genai.safety_ratings := []; genai.content := None |} ] |}).

Definition unknown_model_error : exn :=
  Exn OtherError "unknown model".

(** Building the model object for the name of the request raises. *)
Definition world_unknown_model : World :=
  {| get_json := Ok custom_body;
     requests_get := fun _ => example_page;
     prettify := fun s => s;
     GenerativeModel := fun name =>
       match name with
       | JStr "gemini-pro" => Raise unknown_model_error
       | _ => Ok tt
       end;
     generate_content := fun _ _ => unused |}.

(** The two generation calls of [world_custom]. *)
Definition custom_first_call : call :=
  {| call_model := JStr "gemini-pro";
     call_prompt :=
       prompt_of "Cross-Site Scripting (XSS)" "http://example.com"
         "<html>hello</html>";
     call_safety := safety_settings;
     call_kwargs := [("stream", JBool false)] |}.

Definition custom_second_call : call :=
  {| call_model := default_model;
     call_prompt :=
       analysis_prompt "Found an XSS vector. This is medium risk.";
     call_safety := safety_settings;
     call_kwargs := [] |}.

(** ** Facts about the string operations *)

Section StringFacts.

Import PyStr.

Lemma startswith_spec (p s : string) :
  startswith p s = true <-> exists post, s = p ++ post.
Proof.
  revert s; induction p as [|a p IH]; intros s; cbn.
  - split; [intros _; exists s; reflexivity | reflexivity].
  - destruct s as [|b s].
    + split; [discriminate | intros [post H]; discriminate H].
    + destruct (Ascii.eqb_spec a b) as [->|Hne]; cbn.
      * rewrite IH. split; intros [post H]; exists post.
        -- now rewrite H.
        -- now injection H.
      * split; [discriminate | intros [post H]; injection H; congruence].
Qed.

(** [needle in hay] holds exactly when [hay] splits around [needle]. *)
Lemma contains_spec (needle hay : string) :
  contains needle hay = true <->
  exists pre post, hay = pre ++ needle ++ post.
Proof.
  induction hay as [|c hay IH]; cbn [contains].
  - rewrite orb_false_r, startswith_spec. split.
    + intros [post H]. exists "", post. exact H.
    + intros [[|a pre] [post H]]; [exists post; exact H | discriminate H].
  - rewrite orb_true_iff, startswith_spec, IH. split.
    + intros [[post H] | [pre [post H]]].
      * exists "", post. exact H.
      * exists (String c pre), post. cbn. now rewrite H.
    + intros [[|a pre] [post H]].
      * left. exists post. exact H.
      * right. exists pre, post. now injection H.
Qed.

Lemma lower_app (a b : string) : lower (a ++ b) = lower a ++ lower b.
Proof. induction a as [|c a IH]; cbn; [reflexivity | now rewrite IH]. Qed.

Lemma lower_app_inv (t a b : string) :
  lower t = a ++ b ->
  exists a' b', t = a' ++ b' /\ lower a' = a /\ lower b' = b.
Proof.
  revert t; induction a as [|c a IH]; intros t H.
  - exists "", t. auto.
  - destruct t as [|d t]; [discriminate H|].
    cbn in H. injection H as Hc Ht.
    destruct (IH _ Ht) as [a' [b' [-> [Ha Hb]]]].
    exists (String d a'), b'. cbn. now rewrite Hc, Ha, Hb.
Qed.

Lemma nonempty_true (s : string) : nonempty s = true <-> s <> "".
Proof. destruct s; cbn; split; congruence. Qed.

Lemma or_else_nonempty (a b : string) : a <> "" -> or_else a b = a.
Proof. destruct a; cbn; congruence. Qed.

Lemma or_else_empty (a : string) : or_else a "" = a.
Proof. destruct a; reflexivity. Qed.

Lemma lstrip_all_space (s : string) :
  all_space s = true -> lstrip s = "".
Proof.
  induction s as [|c s IH]; cbn; [reflexivity|].
  destruct (isspace c); cbn; [exact IH | discriminate].
Qed.

Lemma lstrip_not_all_space (s : string) :
  all_space s = false ->
  exists c s', lstrip s = String c s' /\ isspace c = false.
Proof.
  induction s as [|c s IH]; cbn; [discriminate|].
  destruct (isspace c) eqn:Hc; cbn; [exact IH|].
  intros _. exists c, s. auto.
Qed.

(** [not s.strip()] holds exactly for the strings of whitespace. *)
Lemma strip_nonempty (s : string) :
  nonempty (strip s) = negb (all_space s).
Proof.
  unfold strip. destruct (all_space s) eqn:Hs.
  - now rewrite (lstrip_all_space _ Hs).
  - destruct (lstrip_not_all_space _ Hs) as [c [s' [-> Hc]]].
    cbn. rewrite Hc, andb_false_r. reflexivity.
Qed.

Lemma all_space_nonempty (s : string) : all_space s = false -> s <> "".
Proof. destruct s; cbn; congruence. Qed.

Lemma take_length (n : nat) (s : string) :
  String.length (take n s) = Nat.min n (String.length s).
Proof.
  revert s; induction n as [|n IH]; intros [|c s]; cbn; auto.
Qed.

Lemma take_prefix (n : nat) (s : string) :
  exists rest, s = take n s ++ rest.
Proof.
  revert s; induction n as [|n IH]; intros s.
  - exists s. reflexivity.
  - destruct s as [|c s]; [exists ""; reflexivity|].
    destruct (IH s) as [rest H]. exists rest. cbn. now rewrite <- H.
Qed.

Lemma take_all (n : nat) (s : string) :
  String.length s <= n -> take n s = s.
Proof.
  revert s; induction n as [|n IH]; intros [|c s]; cbn; intros H;
    try reflexivity; try lia.
  rewrite IH; [reflexivity | lia].
Qed.

Lemma append_empty_r (s : string) : s ++ "" = s.
Proof. induction s as [|c s IH]; cbn; [reflexivity | now rewrite IH]. Qed.

Lemma append_associative (a b c : string) : (a ++ b) ++ c = a ++ (b ++ c).
Proof. induction a as [|x a IH]; cbn; [reflexivity | now rewrite IH]. Qed.

Lemma concat_cons (t : string) (l : list string) :
  String.concat "" (t :: l) = t ++ String.concat "" l.
Proof. destruct l; cbn; [now rewrite append_empty_r | reflexivity]. Qed.

(** The loop of lines 170-171 concatenates the fragments in order. *)
Lemma fold_left_append {A : Type} (f : A -> string) (l : list A)
    (acc : string) :
  fold_left (fun a x => a ++ f x) l acc = acc ++ String.concat "" (map f l).
Proof.
  revert acc; induction l as [|x l IH]; intros acc.
  - cbn. now rewrite append_empty_r.
  - cbn [fold_left map]. now rewrite IH, concat_cons, append_associative.
Qed.

End StringFacts.

(** ** Symbolic execution of the handler *)

Create HintDb handler.

Ltac case_step :=
  match goal with
  | |- context [match ?x with _ => _ end] =>
      lazymatch x with
      | context [match _ with _ => _ end] => fail
      | _ => destruct x eqn:?
      end
  end.

Ltac tidy :=
  cbv beta iota;
  cbn [app generate_calls fetch_calls flat_map List.length fst snd
       hd_error nth_error option_map].

Ltac unfold_handler :=
  cbv beta iota delta
    [first_answer second_answer first_call second_call
     response calls generate_text handle analyze_threat_level scrape_website
     bind ret lift try_except do_requests_get do_generate_content fst snd];
  tidy.

(** Split the run of [generate_text] into its paths, one goal per path,
    with the answers of the world on that path as hypotheses. *)
Ltac run_handler := unfold_handler; repeat (case_step; tidy).

(** Use the answers of the world recorded on a path to rewrite the facts
    assumed about the same calls. *)
Ltac use_answers :=
  repeat match goal with
    | H : Some _ = Some _ |- _ => injection H as H
    | H : Ok _ = Ok _ |- _ => injection H as H
    | H : Raise _ = Raise _ |- _ => injection H as H
    | H : (_, _) = (_, _) |- _ => injection H as ? ?
    | H : _ :: _ = _ :: _ |- _ => injection H as ? ?
    | H : ?x = _, H' : ?x = _ |- _ => rewrite H in H'
    | H : None = Some _ |- _ => discriminate H
    | H : Some _ = None |- _ => discriminate H
    | H : Raise _ = Ok _ |- _ => discriminate H
    | H : Ok _ = Raise _ |- _ => discriminate H
    | H : [] = _ :: _ |- _ => discriminate H
    | H : _ :: _ = [] |- _ => discriminate H
    | H : true = false |- _ => discriminate H
    | H : false = true |- _ => discriminate H
    | H : ?x = ?y |- _ => first [is_var x; subst x | is_var y; subst y]
    end.

Lemma scraped_eq (w : World) (url : string) :
  scraped w url =
  match requests_get w url with
  | Ok t => Ok (Some (prettify w t))
  | Raise e => if is_request_exception e then Ok None else Raise e
  end.
Proof.
  unfold scraped, scrape_website, try_except, bind, do_requests_get, ret, lift.
  destruct (requests_get w url) as [t|e]; cbn; [reflexivity|].
  destruct (is_request_exception e); reflexivity.
Qed.

Lemma py_get_dict (fields : list (string * json)) (k : string) (d : json) :
  py_get (JObj fields) k d =
  Ok (match Json.lookup k fields with Some v => v | None => d end).
Proof. reflexivity. Qed.

Lemma error_response_is_error (code : Z) (msg : string) :
  is_error (error_response code msg).
Proof. exists msg. reflexivity. Qed.

#[local] Hint Resolve error_response_is_error : handler.

(** ** Input errors *)

(** C7, as amended: when [request.get_json()] raises because the body is not
    valid JSON, the outer [except] answers with status 500 and the exception's
    message in the [error] field, and no outbound call is made. *)
Theorem invalid_json_is_500 (w : World) (e : exn) :
  get_json w = Raise e ->
  status (response w) = 500%Z /\
  field "error" (response w) = Some (JStr (exn_str e)) /\
  calls w = [].
Proof.
  intros H. unfold_handler. rewrite H. tidy. repeat split.
Qed.

Lemma invalid_json_is_500_witness :
  status (response world_invalid_json) = 500%Z
  /\ field "error" (response world_invalid_json)
     = Some (JStr (exn_str bad_request))
  /\ calls world_invalid_json = [].
Proof.
  apply (@invalid_json_is_500 world_invalid_json bad_request).
  reflexivity.
Defined.

(** C7 as stated fails: a body that is not valid JSON does not get a 4xx
    status. *)
Lemma invalid_json_not_4xx :
  ~ (forall (w : World) (e : exn),
        get_json w = Raise e ->
        (400 <= status (response w) < 500)%Z).
Proof.
  intros claim.
  specialize (claim world_invalid_json bad_request eq_refl).
  vm_compute in claim. destruct claim as [_ Hlt]. discriminate Hlt.
Qed.

(** C3, as amended: a request body that is a JSON object without a [url]
    field, or with a falsy one, gets status 400 and an [error] field, and no
    page fetch or generation call is made. *)
Theorem missing_url_is_400 (w : World) (fields : list (string * json)) :
  get_json w = Ok (JObj fields) ->
  lacks_url (JObj fields) ->
  status (response w) = 400%Z /\
  is_error (response w) /\
  calls w = [].
Proof.
  intros Hdata Hurl. unfold lacks_url, url_field in Hurl.
  unfold_handler. rewrite Hdata. tidy. rewrite !py_get_dict. tidy.
  destruct (Json.lookup "url" fields) as [v|].
  - rewrite Hurl. cbn [negb]. tidy. auto with handler.
  - cbn [Json.truthy negb]. tidy. auto with handler.
Qed.

Lemma missing_url_is_400_witness :
  status (response world_empty_url) = 400%Z /\
  is_error (response world_empty_url) /\
  calls world_empty_url = [].
Proof.
  apply (@missing_url_is_400 world_empty_url
           [("vulnerability", JStr "SQL injection"); ("url", JStr "")]).
  - reflexivity.
  - reflexivity.
Defined.

(** C3 as stated fails: a body that is valid JSON but not an object has no
    [url] field and gets status 500, from the [AttributeError] of
    [data.get]. *)
Lemma missing_url_not_400_for_array :
  ~ (forall (w : World) (data : json),
        get_json w = Ok data ->
        lacks_url data ->
        status (response w) = 400%Z /\
        is_error (response w) /\
        calls w = []).
Proof.
  intros claim.
  destruct (claim world_array_body (JArr []) eq_refl I) as [Hstatus _].
  vm_compute in Hstatus. discriminate Hstatus.
Qed.

(** ** Fetch failure *)

(** C4: when the handler asks the page fetcher for [url] and the fetcher
    returns no content, the response has status 500 and an [error] field, and
    no generation call is made. *)
Theorem fetch_failure_is_500 (w : World) (url : string) :
  In (EvFetch url) (calls w) ->
  scraped w url = Ok None ->
  status (response w) = 500%Z /\
  is_error (response w) /\
  generate_calls (calls w) = [].
Proof.
  rewrite scraped_eq. revert url. run_handler.
  all: intros url Hin Hnone; cbn in Hin.
  all: repeat match goal with
         | H : _ \/ _ |- _ => destruct H
         | H : False |- _ => destruct H
         | H : EvFetch _ = EvFetch _ |- _ => injection H as ->
         | H : EvGenerate _ = EvFetch _ |- _ => discriminate H
         end.
  all: repeat match goal with
         | H : requests_get ?w ?u = _, H' : context [requests_get ?w ?u] |- _ =>
             rewrite H in H'
         | H : is_request_exception ?e = _,
           H' : context [is_request_exception ?e] |- _ => rewrite H in H'
         end.
  all: try discriminate.
  all: cbn; auto with handler.
Qed.

Lemma fetch_failure_is_500_witness :
  status (response world_fetch_fails) = 500%Z /\
  is_error (response world_fetch_fails) /\
  generate_calls (calls world_fetch_fails) = [].
Proof.
  apply (@fetch_failure_is_500 world_fetch_fails "http://example.invalid").
  - left. reflexivity.
  - reflexivity.
Defined.

(** ** Failures of the first generation call *)

Lemma is_blocked_any (candidate : genai.Candidate) :
  is_blocked candidate = existsb genai.blocked (genai.safety_ratings candidate).
Proof.
  unfold is_blocked. destruct (genai.safety_ratings candidate); reflexivity.
Qed.

Lemma blocked_response (w : World) (resp : genai.GenResponse)
    (cand : genai.Candidate) (rest : list genai.Candidate) :
  first_answer w = Some (Ok resp) ->
  genai.candidates resp = cand :: rest ->
  existsb genai.blocked (genai.safety_ratings cand) = true ->
  response w = error_response 500 blocked_msg.
Proof.
  rewrite <- is_blocked_any. revert resp cand rest. run_handler.
  all: intros resp cand rest Hans Hcand Hblocked.
  all: use_answers; try discriminate.
  reflexivity.
Qed.

Lemma no_candidates_response (w : World) (resp : genai.GenResponse) :
  first_answer w = Some (Ok resp) ->
  genai.candidates resp = [] ->
  response w = error_response 500 no_candidates_msg.
Proof.
  revert resp. run_handler.
  all: intros resp Hans Hcand.
  all: use_answers; try discriminate.
  reflexivity.
Qed.

(** C5: when the top candidate of the first generation call carries a safety
    rating flagged as blocked, the response has status 500, and its error
    message differs from the one of any request whose first call returned no
    candidates. *)
Theorem blocked_is_500 (w : World) (resp : genai.GenResponse)
    (cand : genai.Candidate) (rest : list genai.Candidate) :
  first_answer w = Some (Ok resp) ->
  genai.candidates resp = cand :: rest ->
  existsb genai.blocked (genai.safety_ratings cand) = true ->
  status (response w) = 500%Z /\
  exists msg,
    field "error" (response w) = Some (JStr msg) /\
    forall (w' : World) (resp' : genai.GenResponse),
      first_answer w' = Some (Ok resp') ->
      genai.candidates resp' = [] ->
      exists msg',
        field "error" (response w') = Some (JStr msg') /\ msg' <> msg.
Proof.
  intros Hans Hcand Hblocked.
  rewrite (blocked_response w resp cand rest Hans Hcand Hblocked).
  split; [reflexivity|].
  exists blocked_msg. split; [reflexivity|].
  intros w' resp' Hans' Hcand'.
  rewrite (no_candidates_response w' resp' Hans' Hcand').
  exists no_candidates_msg. split; [reflexivity | discriminate].
Qed.

Lemma blocked_is_500_witness :
  status (response world_blocked) = 500%Z /\
  exists msg,
    field "error" (response world_blocked) = Some (JStr msg) /\
    forall (w' : World) (resp' : genai.GenResponse),
      first_answer w' = Some (Ok resp') ->
      genai.candidates resp' = [] ->
      exists msg',
        field "error" (response w') = Some (JStr msg') /\ msg' <> msg.
Proof.
  eapply (blocked_is_500 world_blocked).
  - reflexivity.
  - reflexivity.
  - reflexivity.
Defined.

(** The request of [world_no_candidates] is one whose first call returns no
    candidates. *)
Example no_candidates_run :
  first_answer world_no_candidates = Some (Ok {| genai.candidates := [] |}) /\
  response world_no_candidates = error_response 500 no_candidates_msg.
Proof. split; reflexivity. Qed.

(** With [parts], the extracted text is the concatenation of the text
    fragments. *)
Lemma extract_from_parts (ratings : list genai.SafetyRating)
    (ps : list genai.Part) (t : option string) :
  extract_generated_code
    {| genai.safety_ratings := ratings;
       genai.content := Some {| genai.parts := Some ps; genai.text := t |} |}
  = Ok (String.concat "" (map genai.part_text ps)).
Proof.
  unfold extract_generated_code. cbn [genai.content genai.parts].
  now rewrite fold_left_append.
Qed.

(** C8: when the first generation call returns an unblocked top candidate
    whose concatenated text is empty or whitespace only, the response has
    status 500 and an [error] field, and the assessment call is not made. *)
Theorem empty_findings_is_500 (w : World) (resp : genai.GenResponse)
    (cand : genai.Candidate) (rest : list genai.Candidate) (code : string) :
  first_answer w = Some (Ok resp) ->
  genai.candidates resp = cand :: rest ->
  existsb genai.blocked (genai.safety_ratings cand) = false ->
  extract_generated_code cand = Ok code ->
  PyStr.all_space code = true ->
  status (response w) = 500%Z /\
  is_error (response w) /\
  second_call w = None.
Proof.
  rewrite <- is_blocked_any. revert resp cand rest code. run_handler.
  all: intros resp cand rest code Hans Hcand Hblocked Hcode Hspace.
  all: use_answers; try discriminate.
  all: try (cbn; now auto with handler).
  all: match goal with
       | H : negb (PyStr.nonempty (PyStr.strip _)) = false |- _ =>
           rewrite strip_nonempty, Hspace in H; discriminate H
       end.
Qed.

Lemma empty_findings_is_500_witness :
  status (response world_blank_findings) = 500%Z /\
  is_error (response world_blank_findings) /\
  second_call world_blank_findings = None.
Proof.
  eapply (@empty_findings_is_500 world_blank_findings).
  - reflexivity.
  - reflexivity.
  - reflexivity.
  - reflexivity.
  - reflexivity.
Defined.

(** ** Successful responses *)

Lemma strip_nonempty_false (s : string) :
  negb (PyStr.nonempty (PyStr.strip s)) = false -> PyStr.all_space s = false.
Proof.
  rewrite strip_nonempty. destruct (PyStr.all_space s); [discriminate | reflexivity].
Qed.

(** The shape of a candidate from which lines 167-173 extract a non-empty
    text: the concatenation of the [parts], in order, or else the [text]
    attribute. *)
Lemma extracted_text_shape (cand : genai.Candidate) (code : string) :
  extract_generated_code cand = Ok code ->
  code <> "" ->
  exists ct,
    genai.content cand = Some ct /\
    ((exists ps, genai.parts ct = Some ps /\
                 code = String.concat "" (map genai.part_text ps)) \/
     (genai.parts ct = None /\ genai.text ct = Some code)).
Proof.
  unfold extract_generated_code. intros Hcode Hne.
  destruct (genai.content cand) as [ct|].
  - exists ct. split; [reflexivity|].
    destruct (genai.parts ct) as [ps|].
    + left. exists ps. split; [reflexivity|].
      injection Hcode as <-. now rewrite fold_left_append.
    + right. split; [reflexivity|].
      destruct (genai.text ct) as [t|]; [|discriminate Hcode].
      now injection Hcode as <-.
  - injection Hcode as <-. now elim Hne.
Qed.

(** C10: in every response with status 200 the [text] field is the text of
    the top candidate of the first call, that is the concatenation of the
    text fragments of its [parts], in order, or its [text] attribute when it
    has no [parts]; that text is neither empty nor whitespace only, so that
    the fallback of line 185 is never taken. *)
Theorem ok_text_is_findings (w : World) :
  status (response w) = 200%Z ->
  exists resp cand rest ct code,
    first_answer w = Some (Ok resp) /\
    genai.candidates resp = cand :: rest /\
    genai.content cand = Some ct /\
    ((exists ps, genai.parts ct = Some ps /\
                 code = String.concat "" (map genai.part_text ps)) \/
     (genai.parts ct = None /\ genai.text ct = Some code)) /\
    extract_generated_code cand = Ok code /\
    field "text" (response w) = Some (JStr code) /\
    code <> "" /\
    PyStr.all_space code = false.
Proof.
  run_handler.
  all: intros Hstatus; cbn [status error_response] in Hstatus;
    try discriminate Hstatus.
  all: match goal with
       | He : extract_generated_code _ = Ok ?g,
         H : negb (PyStr.nonempty (PyStr.strip ?g)) = false |- _ =>
           pose proof (strip_nonempty_false _ H) as Hspace;
           pose proof (all_space_nonempty _ Hspace) as Hne;
           destruct (extracted_text_shape _ _ He Hne) as [ct [Hct Hshape]]
       end.
  all: match goal with
       | Ha : generate_content _ 0 _ = Ok ?r,
         Hc : genai.candidates ?r = ?c :: ?l,
         He : extract_generated_code ?c = Ok ?g |- _ =>
           exists r, c, l, ct, g; rewrite Ha; repeat split; try assumption
       end.
  all: cbv [field body]; cbn [Json.lookup String.eqb Ascii.eqb Bool.eqb].
  all: now rewrite or_else_nonempty.
Qed.

Lemma ok_text_is_findings_witness :
  exists resp cand rest ct code,
    first_answer world_high_risk = Some (Ok resp) /\
    genai.candidates resp = cand :: rest /\
    genai.content cand = Some ct /\
    ((exists ps, genai.parts ct = Some ps /\
                 code = String.concat "" (map genai.part_text ps)) \/
     (genai.parts ct = None /\ genai.text ct = Some code)) /\
    extract_generated_code cand = Ok code /\
    field "text" (response world_high_risk) = Some (JStr code) /\
    code <> "" /\
    PyStr.all_space code = false.
Proof.
  apply (ok_text_is_findings world_high_risk).
  reflexivity.
Defined.

(** ** The assessment call *)

(** C2, as amended: when the first call succeeds with findings and the
    assessment call raises, the response still has status 200 and its [text]
    field carries the findings; [threat_level] is "Error" and [analysis] is
    the text of the exception, or "No content to analyze" when that text is
    empty. *)
Theorem assessment_exception_is_reported (w : World) (e : exn)
    (resp : genai.GenResponse) (cand : genai.Candidate)
    (rest : list genai.Candidate) (code : string) :
  first_answer w = Some (Ok resp) ->
  genai.candidates resp = cand :: rest ->
  extract_generated_code cand = Ok code ->
  second_answer w = Some (Raise e) ->
  status (response w) = 200%Z /\
  field "text" (response w) = Some (JStr code) /\
  field "threat_level" (response w) = Some (JStr "Error") /\
  field "analysis" (response w)
  = Some (JStr (PyStr.or_else (exn_str e) "No content to analyze")).
Proof.
  revert e resp cand rest code. run_handler.
  all: intros err resp cand rest code Hans Hcand Hcode Hsecond.
  all: use_answers; try discriminate.
  all: match goal with
       | H : negb (PyStr.nonempty (PyStr.strip ?g)) = false |- _ =>
           pose proof (all_space_nonempty _ (strip_nonempty_false _ H)) as Hne
       end.
  all: cbv [field body status];
    cbn [Json.lookup String.eqb Ascii.eqb Bool.eqb].
  all: rewrite (or_else_nonempty _ _ Hne); repeat split.
Qed.

Lemma assessment_exception_is_reported_witness :
  status (response world_assessment_raises) = 200%Z /\
  field "text" (response world_assessment_raises)
  = Some (JStr "Found an XSS vector. This is medium risk.") /\
  field "threat_level" (response world_assessment_raises) = Some (JStr "Error") /\
  field "analysis" (response world_assessment_raises)
  = Some (JStr (PyStr.or_else (exn_str quota_error) "No content to analyze")).
Proof.
  eapply (assessment_exception_is_reported world_assessment_raises quota_error).
  - reflexivity.
  - reflexivity.
  - reflexivity.
  - reflexivity.
Defined.

(** C2 as stated fails: an assessment call that raises does not give the
    pair "Unable to determine threat level" / "No detailed analysis
    available". *)
Lemma assessment_exception_not_sentinel :
  ~ (forall (w : World) (e : exn) (resp : genai.GenResponse)
            (cand : genai.Candidate) (rest : list genai.Candidate)
            (code : string),
        first_answer w = Some (Ok resp) ->
        genai.candidates resp = cand :: rest ->
        extract_generated_code cand = Ok code ->
        second_answer w = Some (Raise e) ->
        status (response w) = 200%Z /\
        field "text" (response w) = Some (JStr code) /\
        field "analysis" (response w)
        = Some (JStr "No detailed analysis available") /\
        field "threat_level" (response w)
        = Some (JStr "Unable to determine threat level")).
Proof.
  intros claim.
  destruct (claim world_assessment_raises quota_error _ _ _ _
              eq_refl eq_refl eq_refl eq_refl) as [_ [_ [_ Hlevel]]].
  vm_compute in Hlevel. discriminate Hlevel.
Qed.

(** The test of line 69, [phrase in text.lower()], finds exactly the
    occurrences of [phrase] up to case. *)
Lemma contains_lower (phrase text : string) :
  PyStr.lower phrase = phrase ->
  PyStr.contains phrase (PyStr.lower text) = true <-> mentions phrase text.
Proof.
  intros Hphrase.
  rewrite contains_spec. unfold mentions, equal_ignoring_case.
  rewrite Hphrase. split.
  - intros [pre [post H]].
    destruct (lower_app_inv _ _ _ H) as [pre' [tail [-> [Hpre Htail]]]].
    destruct (lower_app_inv _ _ _ Htail) as [mid [post' [-> [Hmid Hpost]]]].
    exists pre', mid, post'. auto.
  - intros [pre [mid [post [-> Hmid]]]].
    exists (PyStr.lower pre), (PyStr.lower post).
    now rewrite !lower_app, Hmid.
Qed.

Lemma not_mentions (phrase text : string) :
  PyStr.lower phrase = phrase ->
  PyStr.contains phrase (PyStr.lower text) = false <-> ~ mentions phrase text.
Proof.
  intros Hphrase. rewrite <- (contains_lower _ _ Hphrase).
  destruct (PyStr.contains phrase (PyStr.lower text)); split; congruence.
Qed.

Lemma threat_level_high (t : string) :
  mentions "high risk" t -> threat_level_of t = "High".
Proof.
  intros H. apply contains_lower in H; [|reflexivity].
  unfold threat_level_of. now rewrite H.
Qed.

Lemma threat_level_low (t : string) :
  ~ mentions "high risk" t -> mentions "low risk" t ->
  threat_level_of t = "Low".
Proof.
  intros Hh Hl.
  apply not_mentions in Hh; [|reflexivity].
  apply contains_lower in Hl; [|reflexivity].
  unfold threat_level_of. now rewrite Hh, Hl.
Qed.

Lemma threat_level_medium (t : string) :
  ~ mentions "high risk" t -> ~ mentions "low risk" t ->
  threat_level_of t = "Medium".
Proof.
  intros Hh Hl.
  apply not_mentions in Hh; [|reflexivity].
  apply not_mentions in Hl; [|reflexivity].
  unfold threat_level_of. now rewrite Hh, Hl.
Qed.

Lemma threat_level_truthy (t d : string) :
  PyStr.or_else (threat_level_of t) d = threat_level_of t.
Proof.
  unfold threat_level_of.
  destruct (PyStr.contains "high risk" (PyStr.lower t)); [reflexivity|].
  destruct (PyStr.contains "low risk" (PyStr.lower t)); reflexivity.
Qed.

(** The label in the response when the assessment call returns the text
    [t], not made of whitespace only. *)
Lemma assessed_level (w : World) (resp : genai.GenResponse)
    (cand : genai.Candidate) (rest : list genai.Candidate)
    (ct : genai.Content) (t : string) :
  second_answer w = Some (Ok resp) ->
  genai.candidates resp = cand :: rest ->
  genai.content cand = Some ct ->
  genai.text ct = Some t ->
  PyStr.all_space t = false ->
  field "threat_level" (response w) = Some (JStr (threat_level_of t)).
Proof.
  revert resp cand rest ct t. run_handler.
  all: intros resp cand rest ct t Hans Hcand Hct Ht Hspace.
  all: use_answers; try discriminate.
  all: try match goal with
       | H : negb (PyStr.nonempty (PyStr.strip "")) = false |- _ =>
           discriminate H
       | H : negb (PyStr.nonempty (PyStr.strip ?t)) = true,
         H' : PyStr.all_space ?t = false |- _ =>
           rewrite strip_nonempty, H' in H; discriminate H
       end.
  all: cbv [field body];
    cbn [Json.lookup String.eqb Ascii.eqb Bool.eqb].
  all: now rewrite threat_level_truthy.
Qed.

(** C1, as amended: when the assessment call returns, in the [text]
    attribute of the content of its top candidate, a text that is not made
    of whitespace only, the threat level of the response is "High" if the
    text contains "high risk" up to case, otherwise "Low" if it contains
    "low risk" up to case, otherwise "Medium". *)
Theorem threat_level_from_text (w : World) (resp : genai.GenResponse)
    (cand : genai.Candidate) (rest : list genai.Candidate)
    (ct : genai.Content) (t : string) :
  second_answer w = Some (Ok resp) ->
  genai.candidates resp = cand :: rest ->
  genai.content cand = Some ct ->
  genai.text ct = Some t ->
  PyStr.all_space t = false ->
  (mentions "high risk" t ->
   field "threat_level" (response w) = Some (JStr "High")) /\
  (~ mentions "high risk" t -> mentions "low risk" t ->
   field "threat_level" (response w) = Some (JStr "Low")) /\
  (~ mentions "high risk" t -> ~ mentions "low risk" t ->
   field "threat_level" (response w) = Some (JStr "Medium")).
Proof.
  intros Hans Hcand Hct Ht Hspace.
  rewrite (assessed_level w resp cand rest ct t Hans Hcand Hct Ht Hspace).
  repeat split.
  - intros H. now rewrite threat_level_high.
  - intros Hh Hl. now rewrite threat_level_low.
  - intros Hh Hl. now rewrite threat_level_medium.
Qed.

Lemma threat_level_from_text_witness :
  mentions "high risk" "Reflected input: HIGH Risk. Cookie flags: low risk."
  /\ field "threat_level" (response world_high_risk) = Some (JStr "High").
Proof.
  assert (Hm : mentions "high risk"
                 "Reflected input: HIGH Risk. Cookie flags: low risk.").
  { apply contains_lower; reflexivity. }
  split; [exact Hm|].
  refine (proj1 (threat_level_from_text world_high_risk _ _ _ _ _
                   eq_refl eq_refl eq_refl eq_refl eq_refl) Hm).
Defined.

(** C1 as stated fails: an assessment text can be non-empty and still be
    rejected, and then the threat level is not "Medium". *)
Lemma threat_level_blank_text :
  ~ (forall (w : World) (resp : genai.GenResponse)
            (cand : genai.Candidate) (rest : list genai.Candidate)
            (ct : genai.Content) (t : string),
        second_answer w = Some (Ok resp) ->
        genai.candidates resp = cand :: rest ->
        genai.content cand = Some ct ->
        genai.text ct = Some t ->
        t <> "" ->
        (mentions "high risk" t ->
         field "threat_level" (response w) = Some (JStr "High")) /\
        (~ mentions "high risk" t -> mentions "low risk" t ->
         field "threat_level" (response w) = Some (JStr "Low")) /\
        (~ mentions "high risk" t -> ~ mentions "low risk" t ->
         field "threat_level" (response w) = Some (JStr "Medium"))).
Proof.
  intros claim.
  assert (Hne : " " <> "") by discriminate.
  destruct (claim world_blank_assessment _ _ _ _ " "
              eq_refl eq_refl eq_refl eq_refl Hne) as [_ [_ Hmedium]].
  assert (Hlevel : field "threat_level" (response world_blank_assessment)
                   = Some (JStr "Unable to determine threat level"))
    by reflexivity.
  rewrite Hlevel in Hmedium.
  assert (Hh : ~ mentions "high risk" " ") by (apply not_mentions; reflexivity).
  assert (Hl : ~ mentions "low risk" " ") by (apply not_mentions; reflexivity).
  discriminate (Hmedium Hh Hl).
Qed.

(** ** The URL and the prompt *)

(** What the first generation call is asked, in terms of the request. *)
Lemma first_call_prompt (w : World) (data url : json) (u v page : string)
    (c : call) :
  get_json w = Ok data ->
  py_get data "url" JNull = Ok url ->
  normalize_url url = Ok u ->
  py_get data "vulnerability" (JStr "Cross-Site Scripting (XSS)")
  = Ok (JStr v) ->
  scraped w u = Ok (Some page) ->
  first_call w = Some c ->
  call_prompt c = prompt_of v u page.
Proof.
  revert data url u v page c. run_handler.
  all: intros ? ? ? ? ? ? Hdata Hurl Hnorm Hvuln Hpage Hcall.
  all: use_answers; try discriminate.
  all: rewrite scraped_eq in Hpage.
  all: match goal with
       | H : requests_get _ _ = _ |- _ => rewrite H in Hpage
       end.
  all: cbn [build_prompt] in *; use_answers; reflexivity.
Qed.

Lemma fetched_url (w : World) (data url : json) (u : string) :
  get_json w = Ok data ->
  py_get data "url" JNull = Ok url ->
  Json.truthy url = true ->
  normalize_url url = Ok u ->
  fetch_calls (calls w) = [u].
Proof.
  revert data url u. run_handler.
  all: intros ? ? ? Hdata Hurl Htruthy Hnorm.
  all: use_answers; try discriminate.
  all: try reflexivity.
  all: try match goal with
       | H : py_get ?d _ _ = Ok _, H' : py_get ?d _ _ = Raise _ |- _ =>
           destruct d; discriminate
       end.
  all: match goal with
       | H : negb (Json.truthy _) = true |- _ => rewrite Htruthy in H
       end; discriminate.
Qed.

Lemma fetch_is_normalized (w : World) (data url : json) (u u' : string) :
  get_json w = Ok data ->
  py_get data "url" JNull = Ok url ->
  normalize_url url = Ok u ->
  In (EvFetch u') (calls w) ->
  u' = u.
Proof.
  revert data url u u'. run_handler.
  all: intros ? ? ? ? Hdata Hurl Hnorm Hin; cbn in Hin.
  all: repeat match goal with
         | H : _ \/ _ |- _ => destruct H
         | H : False |- _ => destruct H
         | H : EvFetch _ = EvFetch _ |- _ => injection H as <-
         | H : EvGenerate _ = EvFetch _ |- _ => discriminate H
         end.
  all: use_answers; reflexivity.
Qed.

(** C6: for a request whose [url] is a string, the URL used by the page
    fetcher and embedded in the prompt, after the words "Target URL: ", is
    the string with "http://" prepended once when it starts with neither
    "http://" nor "https://", and the string itself when it starts with one
    of them; unless the string is empty, the page is fetched, once. *)
Theorem url_normalized (w : World) (data : json) (s : string) :
  get_json w = Ok data ->
  py_get data "url" JNull = Ok (JStr s) ->
  (PyStr.startswith "http://" s = false ->
   PyStr.startswith "https://" s = false ->
   downstream_url w data ("http://" ++ s)) /\
  (PyStr.startswith "http://" s = true \/
   PyStr.startswith "https://" s = true ->
   downstream_url w data s) /\
  (s <> "" -> exists u, fetch_calls (calls w) = [u]).
Proof.
  intros Hdata Hurl.
  assert (Hdown : forall u, normalize_url (JStr s) = Ok u ->
                            downstream_url w data u).
  { intros u Hnorm. split.
    - intros u' Hin.
      exact (fetch_is_normalized w data (JStr s) u u' Hdata Hurl Hnorm Hin).
    - intros c v page Hcall Hvuln Hpage.
      destruct (take_prefix (N.to_nat 5000) page) as [rest Hrest].
      exists (PyStr.take (N.to_nat 5000) page), rest.
      split; [|exact Hrest].
      rewrite (first_call_prompt w data (JStr s) u v page c
                 Hdata Hurl Hnorm Hvuln Hpage Hcall).
      unfold prompt_of. rewrite or_else_empty. reflexivity. }
  split; [|split].
  - intros Hhttp Hhttps. apply Hdown. unfold normalize_url.
    now rewrite Hhttp, Hhttps.
  - intros Hprefix. apply Hdown. unfold normalize_url.
    destruct Hprefix as [H | H]; rewrite H; [reflexivity|].
    now rewrite andb_false_r.
  - intros Hne. eexists.
    apply (fetched_url w data (JStr s) _ Hdata Hurl); [|reflexivity].
    now apply nonempty_true.
Qed.

Lemma url_normalized_witness :
  downstream_url world_end_to_end (JObj [("url", JStr "example.com")])
    "http://example.com"
  /\ fetch_calls (calls world_end_to_end) = ["http://example.com"].
Proof.
  destruct (url_normalized world_end_to_end
              (JObj [("url", JStr "example.com")]) "example.com"
              eq_refl eq_refl) as [Hbare [_ _]].
  split; [exact (Hbare eq_refl eq_refl) | reflexivity].
Defined.

(** C9: the prompt of the first generation call is one string made of the
    persona sentence, the vulnerability category of the request, the
    normalized URL and a prefix of the scraped page cut at 5000 characters. *)
Theorem first_prompt (w : World) (data url : json) (u v page : string)
    (c : call) :
  get_json w = Ok data ->
  py_get data "url" JNull = Ok url ->
  normalize_url url = Ok u ->
  py_get data "vulnerability" (JStr "Cross-Site Scripting (XSS)")
  = Ok (JStr v) ->
  scraped w u = Ok (Some page) ->
  first_call w = Some c ->
  exists embedded rest,
    call_prompt c
    = "You are an expert red-team specialist. Attempt to find the following vulnerability: "
      ++ v ++ ". Target URL: " ++ u
      ++ ". Analyze the following website content for vulnerabilities:"
      ++ PyStr.newline ++ embedded /\
    page = embedded ++ rest /\
    String.length embedded = Nat.min (N.to_nat 5000) (String.length page).
Proof.
  intros Hdata Hurl Hnorm Hvuln Hpage Hcall.
  destruct (take_prefix (N.to_nat 5000) page) as [rest Hrest].
  exists (PyStr.take (N.to_nat 5000) page), rest.
  split; [|split].
  - rewrite (first_call_prompt w data url u v page c
               Hdata Hurl Hnorm Hvuln Hpage Hcall).
    unfold prompt_of. rewrite or_else_empty. reflexivity.
  - exact Hrest.
  - apply take_length.
Qed.

Lemma first_prompt_witness :
  exists embedded rest,
    call_prompt long_page_call
    = "You are an expert red-team specialist. Attempt to find the following vulnerability: "
      ++ "SQL injection" ++ ". Target URL: " ++ "https://example.com/login"
      ++ ". Analyze the following website content for vulnerabilities:"
      ++ PyStr.newline ++ embedded /\
    long_page = embedded ++ rest /\
    String.length embedded
    = Nat.min (N.to_nat 5000) (String.length long_page).
Proof.
  apply (first_prompt world_long_page
           (JObj [ ("url", JStr "https://example.com/login");
                   ("vulnerability", JStr "SQL injection") ])
           (JStr "https://example.com/login")
           "https://example.com/login" "SQL injection" long_page
           long_page_call).
  - reflexivity.
  - reflexivity.
  - reflexivity.
  - reflexivity.
  - reflexivity.
  - vm_compute. reflexivity.
Defined.

(** ** Concrete runs *)

(** The end-to-end scenario of the specification. *)
Example end_to_end :
  generate_text world_end_to_end
  = ({| status := 200;
        body := JObj
          [ ("text", JStr "Found an XSS vector. This is medium risk.");
            ("analysis", JStr "Found an XSS vector. This is medium risk.");
            ("threat_level", JStr "Medium") ] |},
     [ EvFetch "http://example.com";
       EvGenerate
         {| call_model := default_model;
            call_prompt :=
              prompt_of "Cross-Site Scripting (XSS)" "http://example.com"
                "<html>hello</html>";
            call_safety := safety_settings;
            call_kwargs := [] |};
       EvGenerate
         {| call_model := default_model;
            call_prompt :=
              analysis_prompt "Found an XSS vector. This is medium risk.";
            call_safety := safety_settings;
            call_kwargs := [] |} ]).
Proof. vm_compute. reflexivity. Qed.

(** The page of [world_long_page] has 8000 characters, of which the prompt
    takes 5000. *)
Example long_page_is_cut :
  N.of_nat (String.length long_page) = 8000%N /\
  N.of_nat (String.length (call_prompt long_page_call))
  = (N.of_nat
       (String.length
          (prompt_of "SQL injection" "https://example.com/login" ""))
     + 5000)%N.
Proof. split; vm_compute; reflexivity. Qed.

(** A blank assessment text falls back to the sentinel pair. *)
Example blank_assessment :
  response world_blank_assessment
  = {| status := 200;
       body := JObj
         [ ("text", JStr "Found an XSS vector. This is medium risk.");
           ("analysis", JStr "No detailed analysis available");
           ("threat_level", JStr "Unable to determine threat level") ] |}.
Proof. reflexivity. Qed.

(** A truthy [url] that is not a string ends in the outer [except]. *)
Example numeric_url :
  generate_text (mock_world (Ok (JObj [("url", JInt 7)])) (Ok "") unused unused)
  = (error_response 500 "'int' object has no attribute 'startswith'", []).
Proof. reflexivity. Qed.


(** ** Further properties of [scrape_website] *)

(** [scrape_website] makes exactly one GET, whatever it is asked and
    whatever happens.  A response gives its prettified text; a
    [RequestException] becomes an absent result; any other exception
    propagates unchanged.  So no [RequestException] leaves it. *)
Theorem scrape_website_contract (w : World) (url : string)
    (tr : list event) :
  snd (scrape_website w url tr) = (tr ++ [EvFetch url])%list /\
  (forall t, requests_get w url = Ok t ->
             fst (scrape_website w url tr) = Ok (Some (prettify w t))) /\
  (forall e, requests_get w url = Raise e ->
             is_request_exception e = true ->
             fst (scrape_website w url tr) = Ok None) /\
  (forall e, requests_get w url = Raise e ->
             is_request_exception e = false ->
             fst (scrape_website w url tr) = Raise e) /\
  (forall e, fst (scrape_website w url tr) = Raise e ->
             is_request_exception e = false).
Proof.
  unfold scrape_website, try_except, bind, do_requests_get, ret, lift.
  destruct (requests_get w url) as [t|e0]; cbn [fst snd].
  - repeat split; try discriminate.
    intros t' H. now injection H as <-.
  - destruct (is_request_exception e0) eqn:He; cbn [fst snd].
    + repeat split; try discriminate.
      intros e H Hcls. injection H as <-. congruence.
    + repeat split; try discriminate.
      * intros e H Hcls. injection H as <-. congruence.
      * intros e H _. now injection H as <-.
      * intros e H. now injection H as <-.
Qed.

(** A fetch that raises a [RequestException] gives an absent result, and
    one that raises something else lets it through. *)
Example scrape_website_runs :
  scrape_website world_fetch_fails "http://example.invalid" []
  = (Ok None, [EvFetch "http://example.invalid"]) /\
  scrape_website world_fetch_crashes "http://example.com" []
  = (Raise decode_error, [EvFetch "http://example.com"]) /\
  scrape_website world_end_to_end "http://example.com" []
  = (Ok (Some "<html>hello</html>"), [EvFetch "http://example.com"]).
Proof. repeat split. Qed.

(** An exception of the fetch that is not a [RequestException] is not
    caught by [scrape_website]: the endpoint answers 500 with the text of
    that exception, and makes no generation call. *)
Theorem other_fetch_exception_is_reported (w : World) (url : string)
    (e : exn) :
  In (EvFetch url) (calls w) ->
  requests_get w url = Raise e ->
  is_request_exception e = false ->
  response w = error_response 500 (exn_str e) /\
  generate_calls (calls w) = [].
Proof.
  revert url e. run_handler.
  all: intros ? ? Hin Hget Hcls; cbn in Hin.
  all: repeat match goal with
         | H : _ \/ _ |- _ => destruct H
         | H : False |- _ => destruct H
         | H : EvFetch _ = EvFetch _ |- _ => injection H as <-
         | H : EvGenerate _ = EvFetch _ |- _ => discriminate H
         end.
  all: use_answers; try discriminate.
  all: split; reflexivity.
Qed.

Lemma other_fetch_exception_is_reported_witness :
  response world_fetch_crashes = error_response 500 (exn_str decode_error) /\
  generate_calls (calls world_fetch_crashes) = [].
Proof.
  apply (other_fetch_exception_is_reported world_fetch_crashes
           "http://example.com" decode_error).
  - left. reflexivity.
  - reflexivity.
  - reflexivity.
Defined.

(** The endpoint does not tell a failed fetch from an empty page: both get
    status 500 with the message "Failed to scrape website content", after
    the one fetch and without a generation call. *)
Theorem empty_page_is_scrape_failure (w : World) (url : string) :
  In (EvFetch url) (calls w) ->
  scraped w url = Ok None \/ scraped w url = Ok (Some "") ->
  response w = error_response 500 scrape_failed_msg /\
  calls w = [EvFetch url].
Proof.
  intros Hin Hpage.
  assert (Hget : (exists e, requests_get w url = Raise e /\
                            is_request_exception e = true) \/
                 (exists t, requests_get w url = Ok t /\ prettify w t = "")).
  { rewrite !scraped_eq in Hpage.
    destruct (requests_get w url) as [t|e].
    - right. exists t. split; [reflexivity|].
      destruct Hpage as [H | H]; [discriminate H | now injection H].
    - left. exists e. split; [reflexivity|].
      destruct (is_request_exception e); [reflexivity|].
      destruct Hpage as [H | H]; discriminate H. }
  clear Hpage. revert url Hin Hget. run_handler.
  all: intros ? Hin Hget; cbn in Hin.
  all: repeat match goal with
         | H : In _ _ |- _ => cbn in H
         | H : _ = _ \/ _ |- _ => destruct H
         | H : False |- _ => destruct H
         | H : EvFetch _ = EvFetch _ |- _ => injection H as <-
         | H : EvGenerate _ = EvFetch _ |- _ => discriminate H
         end.
  all: try (split; reflexivity).
  all: destruct Hget as [[e' [Hraise Hcls]] | [t' [Hok Hempty]]].
  all: use_answers; try discriminate.
  all: match goal with
       | H : negb (PyStr.nonempty (prettify _ _)) = false |- _ =>
           rewrite Hempty in H; discriminate H
       end.
Qed.

Lemma empty_page_is_scrape_failure_witness :
  response world_empty_page = error_response 500 scrape_failed_msg /\
  calls world_empty_page = [EvFetch "http://example.com"].
Proof.
  apply (empty_page_is_scrape_failure world_empty_page "http://example.com").
  - left. reflexivity.
  - right. reflexivity.
Defined.

(** ** Further failures before and in the first generation call *)

(** A truthy [url] that is not a string stops the request before any
    outbound call: status 500, with the [AttributeError] of
    [url.startswith] as the message. *)
Theorem non_string_url_is_500 (w : World) (data url : json) :
  get_json w = Ok data ->
  py_get data "url" JNull = Ok url ->
  Json.truthy url = true ->
  (forall s, url <> JStr s) ->
  response w
  = error_response 500
      ("'" ++ Json.type_name url ++ "' object has no attribute 'startswith'")
  /\ calls w = [].
Proof.
  revert data url. run_handler.
  all: intros ? ? Hdata Hurl Htruthy Hstr.
  all: use_answers; try discriminate.
  all: try match goal with
       | H : py_get ?d _ _ = Ok _, H' : py_get ?d _ _ = Raise _ |- _ =>
           destruct d; discriminate
       end.
  all: try match goal with
       | H : negb (Json.truthy _) = true |- _ =>
           rewrite Htruthy in H; discriminate H
       end.
  all: match goal with
       | H : normalize_url ?u = _ |- _ =>
           destruct u; cbn in H; use_answers;
           try discriminate; try (split; reflexivity)
       end.
  all: exfalso; eapply Hstr; reflexivity.
Qed.

Lemma non_string_url_is_500_witness :
  response world_numeric_url
  = error_response 500 "'int' object has no attribute 'startswith'"
  /\ calls world_numeric_url = [].
Proof.
  apply (non_string_url_is_500 world_numeric_url numeric_url_body (JInt 7)).
  - reflexivity.
  - reflexivity.
  - reflexivity.
  - discriminate.
Defined.

(** A [vulnerability] that is not a string is found out only when the
    prompt is built: the page has been fetched by then, the request ends
    with status 500 and the [TypeError] of the concatenation, and no
    generation call is made. *)
Theorem non_string_vulnerability_is_500 (w : World) (data v : json)
    (u page : string) :
  get_json w = Ok data ->
  py_get data "vulnerability" (JStr "Cross-Site Scripting (XSS)") = Ok v ->
  (forall s, v <> JStr s) ->
  In (EvFetch u) (calls w) ->
  scraped w u = Ok (Some page) ->
  page <> "" ->
  response w
  = error_response 500
      ("can only concatenate str (not " ++ PyStr.dquote ++ Json.type_name v
       ++ PyStr.dquote ++ ") to str")
  /\ calls w = [EvFetch u].
Proof.
  intros Hdata Hvuln Hstr Hin Hpage Hne.
  rewrite scraped_eq in Hpage.
  destruct (requests_get w u) as [t|e] eqn:Hget;
    [| destruct (is_request_exception e); discriminate Hpage].
  injection Hpage as Hpage.
  revert data v u page t Hdata Hvuln Hstr Hin Hget Hpage Hne. run_handler.
  all: intros ? ? ? ? ? Hdata Hvuln Hstr Hin Hget Hpage Hne; cbn in Hin.
  all: repeat match goal with
         | H : _ = _ \/ _ |- _ => destruct H
         | H : False |- _ => destruct H
         | H : EvFetch _ = EvFetch _ |- _ => injection H as <-
         | H : EvGenerate _ = EvFetch _ |- _ => discriminate H
         end.
  all: use_answers; try discriminate.
  all: try match goal with
       | H : negb (PyStr.nonempty ?p) = true |- _ =>
           destruct p; [now elim Hne | discriminate H]
       end.
  all: match goal with
       | H : build_prompt ?v _ _ = _ |- _ =>
           destruct v; cbn in H; use_answers;
           try discriminate; try (split; reflexivity)
       end.
  all: exfalso; eapply Hstr; reflexivity.
Qed.

Lemma non_string_vulnerability_is_500_witness :
  response world_numeric_vulnerability
  = error_response 500
      ("can only concatenate str (not " ++ PyStr.dquote ++ "int"
       ++ PyStr.dquote ++ ") to str")
  /\ calls world_numeric_vulnerability = [EvFetch "http://example.com"].
Proof.
  apply (non_string_vulnerability_is_500 world_numeric_vulnerability
           numeric_vulnerability_body (JInt 3) "http://example.com"
           "<html>hello</html>").
  - reflexivity.
  - reflexivity.
  - discriminate.
  - left. reflexivity.
  - reflexivity.
  - discriminate.
Defined.

(** An exception raised while the model object is built (line 146, outside
    the inner [try]) reaches the caller with its own text, after the page
    fetch and before any generation call. *)
Theorem model_error_is_reported (w : World) (data model_name : json)
    (e : exn) (u v page : string) :
  get_json w = Ok data ->
  py_get data "model" default_model = Ok model_name ->
  GenerativeModel w model_name = Raise e ->
  py_get data "vulnerability" (JStr "Cross-Site Scripting (XSS)")
  = Ok (JStr v) ->
  In (EvFetch u) (calls w) ->
  scraped w u = Ok (Some page) ->
  page <> "" ->
  response w = error_response 500 (exn_str e) /\
  calls w = [EvFetch u].
Proof.
  intros Hdata Hmodel Hraise Hvuln Hin Hpage Hne.
  rewrite scraped_eq in Hpage.
  destruct (requests_get w u) as [t|e'] eqn:Hget;
    [| destruct (is_request_exception e'); discriminate Hpage].
  injection Hpage as Hpage.
  revert data model_name e u v page t
         Hdata Hmodel Hraise Hvuln Hin Hget Hpage Hne.
  run_handler.
  all: intros ? ? ? ? ? ? ? Hdata Hmodel Hraise Hvuln Hin Hget Hpage Hne;
    cbn in Hin.
  all: repeat match goal with
         | H : _ = _ \/ _ |- _ => destruct H
         | H : False |- _ => destruct H
         | H : EvFetch _ = EvFetch _ |- _ => injection H as <-
         | H : EvGenerate _ = EvFetch _ |- _ => discriminate H
         end.
  all: use_answers; try discriminate.
  all: try (split; reflexivity).
  all: match goal with
       | H : negb (PyStr.nonempty ?p) = true |- _ =>
           destruct p; [now elim Hne | discriminate H]
       end.
Qed.

Lemma model_error_is_reported_witness :
  response world_unknown_model
  = error_response 500 (exn_str unknown_model_error) /\
  calls world_unknown_model = [EvFetch "http://example.com"].
Proof.
  apply (model_error_is_reported world_unknown_model custom_body
           (JStr "gemini-pro") unknown_model_error "http://example.com"
           "Cross-Site Scripting (XSS)" "<html>hello</html>").
  - reflexivity.
  - reflexivity.
  - reflexivity.
  - reflexivity.
  - left. reflexivity.
  - reflexivity.
  - discriminate.
Defined.

(** An exception of the first generation call is masked: the response is
    500 with the fixed message "Failed to generate content", whatever the
    exception says, and the assessment call is not made. *)
Theorem generation_exception_is_masked (w : World) (e : exn) :
  first_answer w = Some (Raise e) ->
  response w = error_response 500 generate_failed_msg /\
  second_call w = None.
Proof.
  revert e. run_handler.
  all: intros ? Hans; use_answers; try discriminate.
  all: split; reflexivity.
Qed.

Lemma generation_exception_is_masked_witness :
  response world_generation_raises = error_response 500 generate_failed_msg /\
  second_call world_generation_raises = None.
Proof.
  apply (generation_exception_is_masked world_generation_raises quota_error).
  reflexivity.
Defined.

(** When [parameters] cannot be unpacked as keyword arguments (it is not a
    JSON object, or it repeats [safety_settings]), the service is never
    called and the request fails with an error body. *)
Theorem bad_parameters_make_no_call (w : World) (data parameters : json)
    (e : exn) :
  get_json w = Ok data ->
  py_get data "parameters" (JObj []) = Ok parameters ->
  unpack_kwargs parameters = Raise e ->
  generate_calls (calls w) = [] /\
  is_error (response w) /\
  (status (response w) = 400%Z \/ status (response w) = 500%Z).
Proof.
  revert data parameters e. run_handler.
  all: intros ? ? ? Hdata Hparams Hkw.
  all: use_answers; try discriminate.
  all: cbn [status error_response];
    repeat split; auto with handler.
Qed.

Lemma bad_parameters_make_no_call_witness :
  generate_calls (calls world_list_parameters) = [] /\
  is_error (response world_list_parameters) /\
  (status (response world_list_parameters) = 400%Z \/
   status (response world_list_parameters) = 500%Z).
Proof.
  eapply (bad_parameters_make_no_call world_list_parameters
            list_parameters_body (JArr [JFloat 0.5%float])).
  - reflexivity.
  - reflexivity.
  - reflexivity.
Defined.

(** When the first generation call returns no candidates, the response is
    500 with the message "No candidates returned from the model", and the
    assessment call is not made. *)
Theorem no_candidates_is_500 (w : World) (resp : genai.GenResponse) :
  first_answer w = Some (Ok resp) ->
  genai.candidates resp = [] ->
  response w = error_response 500 no_candidates_msg /\
  second_call w = None.
Proof.
  revert resp. run_handler.
  all: intros ? Hans Hcand; use_answers; try discriminate.
  all: split; reflexivity.
Qed.

Lemma no_candidates_is_500_witness :
  response world_no_candidates = error_response 500 no_candidates_msg /\
  second_call world_no_candidates = None.
Proof.
  eapply (no_candidates_is_500 world_no_candidates).
  - reflexivity.
  - reflexivity.
Defined.

(** ** What the two generation calls are asked *)

(** The first generation call forwards the request as it is: the model is
    the [model] field (or the default), the keyword arguments are the fields
    of [parameters] (or none), and the safety settings are the fixed ones. *)
Theorem first_call_arguments (w : World) (data : json) (c : call) :
  get_json w = Ok data ->
  first_call w = Some c ->
  py_get data "model" default_model = Ok (call_model c) /\
  py_get data "parameters" (JObj []) = Ok (JObj (call_kwargs c)) /\
  call_safety c = safety_settings.
Proof.
  revert data c. run_handler.
  all: intros ? ? Hdata Hcall; use_answers; try discriminate.
  all: cbn [call_model call_kwargs call_safety].
  all: match goal with
       | H : unpack_kwargs ?p = Ok _ |- _ =>
           destruct p; try discriminate H; cbn in H;
           match type of H with
           | context [Json.has_key ?k ?f] =>
               destruct (Json.has_key k f); [discriminate H|]
           end;
           injection H as <-
       end.
  all: repeat split; assumption.
Qed.

Lemma first_call_arguments_witness :
  py_get custom_body "model" default_model
  = Ok (call_model custom_first_call) /\
  py_get custom_body "parameters" (JObj [])
  = Ok (JObj (call_kwargs custom_first_call)) /\
  call_safety custom_first_call = safety_settings.
Proof.
  apply (first_call_arguments world_custom custom_body custom_first_call).
  - reflexivity.
  - reflexivity.
Defined.

(** The assessment call does not depend on the request's [model] or
    [parameters]: it is made on the default model, without keyword
    arguments, with the fixed safety settings, and its prompt is the fixed
    instruction followed by the text that the response returns as [text].
    Once it is made, the request succeeds. *)
Theorem assessment_call_arguments (w : World) (c : call) :
  second_call w = Some c ->
  call_model c = default_model /\
  call_kwargs c = [] /\
  call_safety c = safety_settings /\
  status (response w) = 200%Z /\
  exists code,
    field "text" (response w) = Some (JStr code) /\
    call_prompt c
    = "Analyze the following content for vulnerabilities and provide a threat level assessment. Explain the findings and give your thoughts on the potential risks:"
      ++ PyStr.newline ++ PyStr.newline ++ code.
Proof.
  revert c. run_handler.
  all: intros ? Hcall; use_answers; try discriminate.
  all: match goal with
       | He : extract_generated_code _ = Ok ?g,
         H : negb (PyStr.nonempty (PyStr.strip ?g)) = false |- _ =>
           pose proof (all_space_nonempty _ (strip_nonempty_false _ H)) as Hne
       end.
  all: repeat split.
  all: match goal with
       | He : extract_generated_code _ = Ok ?g |- _ => exists g
       end.
  all: cbv [field body]; cbn [Json.lookup String.eqb Ascii.eqb Bool.eqb].
  all: rewrite !(or_else_nonempty _ _ Hne).
  all: split; reflexivity.
Qed.

Lemma assessment_call_arguments_witness :
  call_model custom_second_call = default_model /\
  call_kwargs custom_second_call = [] /\
  call_safety custom_second_call = safety_settings /\
  status (response world_custom) = 200%Z /\
  exists code,
    field "text" (response world_custom) = Some (JStr code) /\
    call_prompt custom_second_call
    = "Analyze the following content for vulnerabilities and provide a threat level assessment. Explain the findings and give your thoughts on the potential risks:"
      ++ PyStr.newline ++ PyStr.newline ++ code.
Proof.
  apply (assessment_call_arguments world_custom custom_second_call).
  reflexivity.
Defined.

(** ** Invariants of every request *)

(** Every response is either a success, with status 200 and exactly the
    fields [text], [analysis] and [threat_level], all strings, or a failure,
    with status 400 or 500 and exactly the field [error], a string. *)
Theorem response_shape (w : World) :
  (status (response w) = 200%Z /\
   exists t a l,
     body (response w)
     = JObj [("text", JStr t); ("analysis", JStr a); ("threat_level", JStr l)])
  \/
  ((status (response w) = 400%Z \/ status (response w) = 500%Z) /\
   exists msg, body (response w) = JObj [("error", JStr msg)]).
Proof.
  run_handler.
  all: cbn [status body error_response].
  all: first
         [ left; split; [reflexivity | do 3 eexists; reflexivity]
         | right; split; [auto | eexists; reflexivity] ].
Qed.

(** The outbound calls of a request are, in this order, at most one page
    fetch, then at most two generation calls; no generation call is made
    without a fetch before it. *)
Theorem call_discipline (w : World) :
  calls w = [] \/
  (exists u, calls w = [EvFetch u]) \/
  (exists u c1, calls w = [EvFetch u; EvGenerate c1]) \/
  (exists u c1 c2, calls w = [EvFetch u; EvGenerate c1; EvGenerate c2]).
Proof.
  run_handler.
  all: first
         [ left; reflexivity
         | right; left; eexists; reflexivity
         | right; right; left; do 2 eexists; reflexivity
         | right; right; right; do 3 eexists; reflexivity ].
Qed.

(** A request succeeds exactly when it gets as far as the assessment call:
    status 200 and a second generation call go together. *)
Theorem ok_iff_assessed (w : World) :
  status (response w) = 200%Z <-> exists c, second_call w = Some c.
Proof.
  run_handler.
  all: cbn [status error_response].
  all: split; [intros H | intros [? H]]; try discriminate H;
    try reflexivity; try (eexists; reflexivity).
  all: match goal with
       | H : negb (PyStr.nonempty (PyStr.strip ?g)) = false,
         H' : negb (PyStr.nonempty (PyStr.or_else ?g "")) = true |- _ =>
           rewrite or_else_empty in H';
           pose proof (all_space_nonempty _ (strip_nonempty_false _ H)) as Hne;
           destruct g; [now elim Hne | discriminate H']
       end.
Qed.

(** Status 400 is given for one reason only: the body is a JSON object
    without a truthy [url]; and then nothing has been called. *)
Theorem status_400_only_for_missing_url (w : World) :
  status (response w) = 400%Z ->
  exists fields,
    get_json w = Ok (JObj fields) /\
    lacks_url (JObj fields) /\
    calls w = [].
Proof.
  run_handler.
  all: cbn [status error_response]; intros Hstatus; try discriminate Hstatus.
  match goal with
  | H : py_get ?d "url" JNull = Ok ?u |- _ =>
      destruct d; try discriminate H; rewrite py_get_dict in H;
      injection H as H
  end.
  eexists. split; [reflexivity|]. split; [|reflexivity].
  unfold lacks_url, url_field.
  match goal with
  | H : negb (Json.truthy ?u) = true |- _ =>
      destruct (Json.truthy u) eqn:Ht; [discriminate H|]
  end.
  destruct (Json.lookup "url" fields) as [v|]; [|exact I].
  now subst.
Qed.

Lemma status_400_only_for_missing_url_witness :
  exists fields,
    get_json world_empty_url = Ok (JObj fields) /\
    lacks_url (JObj fields) /\
    calls world_empty_url = [].
Proof.
  apply (status_400_only_for_missing_url world_empty_url).
  reflexivity.
Defined.

(** ** Further properties of the assessment *)

(** When the assessment call returns no candidates, or a top candidate
    whose content has no [text] attribute (whatever its [parts] hold), the
    request still succeeds, with the pair "Unable to determine threat level"
    and "No detailed analysis available". *)
Theorem assessment_without_text (w : World) (resp : genai.GenResponse) :
  second_answer w = Some (Ok resp) ->
  genai.candidates resp = [] \/
  (exists cand rest ct,
      genai.candidates resp = cand :: rest /\
      genai.content cand = Some ct /\
      genai.text ct = None) ->
  status (response w) = 200%Z /\
  field "threat_level" (response w)
  = Some (JStr "Unable to determine threat level") /\
  field "analysis" (response w)
  = Some (JStr "No detailed analysis available").
Proof.
  intros Hans Hshape. revert resp Hans Hshape. run_handler.
  all: intros ? Hans Hshape; use_answers; try discriminate.
  all: destruct Hshape as [Hnil | [cand' [rest' [ct' [Hcons [Hct Htext]]]]]].
  all: unfold unable in *; use_answers; try discriminate.
  all: try (repeat split; reflexivity).
  all: match goal with
       | H : negb (PyStr.nonempty (PyStr.strip "")) = false |- _ =>
           discriminate H
       end.
Qed.

Lemma assessment_without_text_witness :
  status (response world_parts_assessment) = 200%Z /\
  field "threat_level" (response world_parts_assessment)
  = Some (JStr "Unable to determine threat level") /\
  field "analysis" (response world_parts_assessment)
  = Some (JStr "No detailed analysis available").
Proof.
  eapply (assessment_without_text world_parts_assessment).
  - reflexivity.
  - right. do 3 eexists. repeat split; reflexivity.
Defined.

(** A top candidate without [content] is handled differently by the two
    calls: in the first call it counts as empty output, in the assessment
    call reading it raises, and the response is a success labelled
    "Error". *)
Theorem assessment_without_content (w : World) (resp : genai.GenResponse)
    (cand : genai.Candidate) (rest : list genai.Candidate) :
  second_answer w = Some (Ok resp) ->
  genai.candidates resp = cand :: rest ->
  genai.content cand = None ->
  extract_generated_code cand = Ok "" /\
  status (response w) = 200%Z /\
  field "threat_level" (response w) = Some (JStr "Error").
Proof.
  intros Hans Hcand Hcontent.
  split; [unfold extract_generated_code; now rewrite Hcontent|].
  revert resp cand rest Hans Hcand Hcontent. run_handler.
  all: intros ? ? ? Hans Hcand Hcontent; use_answers; try discriminate.
  all: split; reflexivity.
Qed.

Lemma assessment_without_content_witness :
  extract_generated_code
    {| genai.safety_ratings := []; genai.content := None |} = Ok "" /\
  status (response world_bare_assessment) = 200%Z /\
  field "threat_level" (response world_bare_assessment)
  = Some (JStr "Error").
Proof.
  eapply (assessment_without_content world_bare_assessment).
  - reflexivity.
  - reflexivity.
  - reflexivity.
Defined.

(** The [threat_level] of a response is always one of five labels; the
    fallback "N/A" of line 187 is never returned. *)
Theorem threat_labels (w : World) (l : json) :
  field "threat_level" (response w) = Some l ->
  l = JStr "High" \/ l = JStr "Medium" \/ l = JStr "Low" \/
  l = JStr "Unable to determine threat level" \/ l = JStr "Error".
Proof.
  revert l. run_handler.
  all: intros ?; cbv [field body error_response];
    cbn [Json.lookup String.eqb Ascii.eqb Bool.eqb].
  all: intros Hl; try discriminate Hl.
  all: unfold unable in *; use_answers.
  all: try rewrite threat_level_truthy.
  all: unfold threat_level_of.
  all: repeat match goal with
         | |- context [if ?b then _ else _] => destruct b
         end.
  all: cbn; tauto.
Qed.

Lemma threat_labels_witness :
  field "threat_level" (response world_high_risk) = Some (JStr "High") /\
  (JStr "High" = JStr "High" \/ JStr "High" = JStr "Medium" \/
   JStr "High" = JStr "Low" \/
   JStr "High" = JStr "Unable to determine threat level" \/
   JStr "High" = JStr "Error").
Proof.
  split; [reflexivity|].
  apply (threat_labels world_high_risk (JStr "High")).
  reflexivity.
Defined.

(** When the assessment call returns, in the [text] attribute of the
    content of its top candidate, a text that is not made of whitespace
    only, the [analysis] field is that text, character for character:
    neither stripped nor lowered. *)
Theorem analysis_is_verbatim (w : World) (resp : genai.GenResponse)
    (cand : genai.Candidate) (rest : list genai.Candidate)
    (ct : genai.Content) (t : string) :
  second_answer w = Some (Ok resp) ->
  genai.candidates resp = cand :: rest ->
  genai.content cand = Some ct ->
  genai.text ct = Some t ->
  PyStr.all_space t = false ->
  field "analysis" (response w) = Some (JStr t).
Proof.
  revert resp cand rest ct t. run_handler.
  all: intros ? ? ? ? ? Hans Hcand Hct Ht Hspace.
  all: use_answers; try discriminate.
  all: try match goal with
       | H : negb (PyStr.nonempty (PyStr.strip "")) = false |- _ =>
           discriminate H
       | H : negb (PyStr.nonempty (PyStr.strip ?t)) = true,
         H' : PyStr.all_space ?t = false |- _ =>
           rewrite strip_nonempty, H' in H; discriminate H
       end.
  all: cbv [field body];
    cbn [Json.lookup String.eqb Ascii.eqb Bool.eqb].
  all: now rewrite (or_else_nonempty _ _ (all_space_nonempty _ Hspace)).
Qed.

Lemma analysis_is_verbatim_witness :
  field "analysis" (response world_high_risk)
  = Some (JStr "Reflected input: HIGH Risk. Cookie flags: low risk.").
Proof.
  eapply (analysis_is_verbatim world_high_risk).
  - reflexivity.
  - reflexivity.
  - reflexivity.
  - reflexivity.
  - reflexivity.
Defined.

(** Once the default model object can be built, [analyze_threat_level]
    never raises: every failure of the call becomes a pair of strings.  It
    makes at most one generation call, and none for empty content. *)
Theorem analyze_never_raises (w : World) (content : string)
    (tr : list event) :
  GenerativeModel w default_model = Ok tt ->
  (exists level analysis,
      fst (analyze_threat_level w content tr) = Ok (level, analysis)) /\
  (snd (analyze_threat_level w content tr) = tr \/
   exists c, snd (analyze_threat_level w content tr)
             = (tr ++ [EvGenerate c])%list) /\
  (content = "" -> analyze_threat_level w content tr = (Ok unable, tr)).
Proof.
  intros Hmodel.
  cbv beta iota delta
    [analyze_threat_level bind ret lift try_except do_generate_content].
  rewrite Hmodel. cbv beta iota.
  repeat (case_step; cbv beta iota; cbn [fst snd]).
  all: unfold unable; repeat split; eauto.
  all: try (intros ->; discriminate).
Qed.

Lemma analyze_never_raises_witness :
  (exists level analysis,
      fst (analyze_threat_level world_assessment_raises "findings" [])
      = Ok (level, analysis)) /\
  (snd (analyze_threat_level world_assessment_raises "findings" []) = [] \/
   exists c, snd (analyze_threat_level world_assessment_raises "findings" [])
             = ([] ++ [EvGenerate c])%list) /\
  ("findings" = "" ->
   analyze_threat_level world_assessment_raises "findings" []
   = (Ok unable, [])).
Proof.
  apply (analyze_never_raises world_assessment_raises "findings" []).
  reflexivity.
Defined.

(** ** Further properties of the URL and the prompt *)

Lemma normalize_url_scheme (url : json) (u : string) :
  normalize_url url = Ok u ->
  PyStr.startswith "http://" u = true \/
  PyStr.startswith "https://" u = true.
Proof.
  destruct url; try discriminate. unfold normalize_url.
  destruct (PyStr.startswith "http://" s) eqn:Hhttp; cbn [negb andb].
  - intros H. injection H as <-. now left.
  - destruct (PyStr.startswith "https://" s) eqn:Hhttps; cbn [negb andb].
    + intros H. injection H as <-. now right.
    + intros H. injection H as <-. left. reflexivity.
Qed.

(** The page fetcher is only ever asked for a URL that starts with
    "http://" or "https://". *)
Theorem fetch_has_scheme (w : World) (u : string) :
  In (EvFetch u) (calls w) ->
  PyStr.startswith "http://" u = true \/
  PyStr.startswith "https://" u = true.
Proof.
  revert u. run_handler.
  all: intros ? Hin; cbn in Hin.
  all: repeat match goal with
         | H : _ = _ \/ _ |- _ => destruct H
         | H : False |- _ => destruct H
         | H : EvFetch _ = EvFetch _ |- _ => injection H as <-
         | H : EvGenerate _ = EvFetch _ |- _ => discriminate H
         end.
  all: eapply normalize_url_scheme; eassumption.
Qed.

Lemma fetch_has_scheme_witness :
  PyStr.startswith "http://" "http://example.com" = true \/
  PyStr.startswith "https://" "http://example.com" = true.
Proof.
  apply (fetch_has_scheme world_end_to_end "http://example.com").
  left. reflexivity.
Defined.

(** Normalizing is idempotent: a URL that lines 117-118 have produced is
    left as it is when it goes through them again. *)
Theorem normalize_url_idempotent (url : json) (u : string) :
  normalize_url url = Ok u ->
  normalize_url (JStr u) = Ok u.
Proof.
  intros H. unfold normalize_url.
  destruct (normalize_url_scheme url u H) as [Hs | Hs]; rewrite Hs.
  - reflexivity.
  - now rewrite andb_false_r.
Qed.

Lemma normalize_url_idempotent_witness :
  normalize_url (JStr "example.com") = Ok "http://example.com" /\
  normalize_url (JStr "http://example.com") = Ok "http://example.com".
Proof.
  split; [reflexivity|].
  apply (normalize_url_idempotent (JStr "example.com") "http://example.com").
  reflexivity.
Defined.

Lemma length_append (a b : string) :
  String.length (a ++ b) = String.length a + String.length b.
Proof. induction a as [|c a IH]; cbn; [reflexivity | now rewrite IH]. Qed.

(** The prompt of the first generation call has 159 characters of fixed
    text, the category, the URL, and at most 5000 characters of the page:
    the page cannot make it longer than that, the category and the URL
    can. *)
Theorem first_prompt_length (w : World) (data url : json)
    (u v page : string) (c : call) :
  get_json w = Ok data ->
  py_get data "url" JNull = Ok url ->
  normalize_url url = Ok u ->
  py_get data "vulnerability" (JStr "Cross-Site Scripting (XSS)")
  = Ok (JStr v) ->
  scraped w u = Ok (Some page) ->
  first_call w = Some c ->
  String.length (call_prompt c)
  = 159 + String.length v + String.length u
    + Nat.min (N.to_nat 5000) (String.length page).
Proof.
  intros Hdata Hurl Hnorm Hvuln Hpage Hcall.
  rewrite (first_call_prompt w data url u v page c
             Hdata Hurl Hnorm Hvuln Hpage Hcall).
  unfold prompt_of. rewrite or_else_empty.
  rewrite !length_append, take_length.
  unfold PyStr.newline. cbn [String.length]. lia.
Qed.

Lemma first_prompt_length_witness :
  String.length (call_prompt long_page_call)
  = 159 + String.length "SQL injection"
    + String.length "https://example.com/login"
    + Nat.min (N.to_nat 5000) (String.length long_page).
Proof.
  apply (first_prompt_length world_long_page
           (JObj [ ("url", JStr "https://example.com/login");
                   ("vulnerability", JStr "SQL injection") ])
           (JStr "https://example.com/login")
           "https://example.com/login" "SQL injection" long_page
           long_page_call).
  - reflexivity.
  - reflexivity.
  - reflexivity.
  - reflexivity.
  - reflexivity.
  - vm_compute. reflexivity.
Defined.

(** The assessment reads the [text] attribute only: the text of
    [world_parts_assessment], returned as [parts], names a high risk and is
    not read. *)
Example text_as_parts_is_not_read :
  second_answer world_parts_assessment
  = Some (Ok (parts_response [] ["This is high risk."])) /\
  mentions "high risk" "This is high risk." /\
  field "threat_level" (response world_parts_assessment)
  = Some (JStr "Unable to determine threat level") /\
  field "analysis" (response world_parts_assessment)
  = Some (JStr "No detailed analysis available").
Proof.
  split; [reflexivity|]. split; [|split; reflexivity].
  apply contains_lower; reflexivity.
Qed.
